(** * pgdatadiff: the comparison engine of [pgdatadiff/pgdatadiff.py]

    A shallow embedding of [DBDiff] (table diff, sequence diff, orchestration),
    [StatusUpdate] and [retry], followed by the properties checked against it.

    Conventions of the embedding:
    - Python's [True] / [False] / [None] results are the three constructors of
      [Verdict];
    - a Python method is a computation in the monad [M]: it reads and updates
      the [World] and either returns, raises an exception class, or is still
      running when the iteration budget of a [while] loop is spent;
    - a database is a catalog of integer-valued tables, sequences and routines;
      statements are evaluated by the functions of the section "SQL";
    - console output ([print], the spinner) is not part of the [World]. *)

From Stdlib Require Import String ZArith List Bool DecimalString Decimal Ascii Lia.
Import ListNotations.
Open Scope string_scope.
Open Scope Z_scope.

(* ================================================================= *)
(** ** Exceptions and name resolution *)

(** The exception classes that the module can meet, with the class tree of
    Python and of [sqlalchemy.exc]. *)
Inductive ExcClass : Type :=
| Exception
| NameError
| AttributeError
| TypeError
| IndexError
| SQLAlchemyError
| InvalidRequestError
| NoSuchTableError
| StatementError
| DBAPIError
| DatabaseError
| DataError
| OperationalError
| ProgrammingError.

Definition base_class (c : ExcClass) : option ExcClass :=
  match c with
  | Exception => None
  | NameError | AttributeError | TypeError | IndexError => Some Exception
  | SQLAlchemyError => Some Exception
  | InvalidRequestError => Some SQLAlchemyError
  | NoSuchTableError => Some InvalidRequestError
  | StatementError => Some SQLAlchemyError
  | DBAPIError => Some StatementError
  | DatabaseError => Some DBAPIError
  | DataError | OperationalError | ProgrammingError => Some DatabaseError
  end.

Definition exc_eqb (c d : ExcClass) : bool :=
  match c, d with
  | Exception, Exception | NameError, NameError
  | AttributeError, AttributeError | TypeError, TypeError
  | IndexError, IndexError | SQLAlchemyError, SQLAlchemyError
  | InvalidRequestError, InvalidRequestError
  | NoSuchTableError, NoSuchTableError | StatementError, StatementError
  | DBAPIError, DBAPIError | DatabaseError, DatabaseError
  | DataError, DataError | OperationalError, OperationalError
  | ProgrammingError, ProgrammingError => true
  | _, _ => false
  end.

(** [issubclass_upto n c d]: [d] is [c] or one of its first [n] ancestors. *)
Fixpoint issubclass_upto (n : nat) (c d : ExcClass) : bool :=
  exc_eqb c d ||
  match n with
  | O => false
  | S n' => match base_class c with
            | Some b => issubclass_upto n' b d
            | None => false
            end
  end.

(** [isinstance(ex, cls)] for an exception whose class is [ex]; the class
    tree above has depth 5. *)
Definition isinstance (ex cls : ExcClass) : bool := issubclass_upto 6 ex cls.

(** The global namespace in which the functions of the module look up the
    exception classes they name.  Only bindings to exception classes are
    listed: no other global can make an [isinstance] test or an [except]
    clause succeed. *)
Definition Namespace : Type := list (string * ExcClass).

Fixpoint load_global (G : Namespace) (name : string) : option ExcClass :=
  match G with
  | [] => None
  | (n, c) :: G' => if String.eqb n name then Some c else load_global G' name
  end.

(** The namespace of the module as it is written: its only import of
    exception classes is
    [from sqlalchemy.exc import NoSuchTableError, ProgrammingError,
    OperationalError]. *)
Definition module_globals : Namespace :=
  [ ("NoSuchTableError", NoSuchTableError);
    ("ProgrammingError", ProgrammingError);
    ("OperationalError", OperationalError) ].

(* ================================================================= *)
(** ** Python values, dictionaries and text *)

Inductive PyVal : Type :=
| PyNone
| PyBool (b : bool)
| PyInt (z : Z).

(** A [dict] with string keys; insertion order is kept, as in Python. *)
Definition Dict : Type := list (string * PyVal).

Fixpoint dict_get (d : Dict) (k : string) : option PyVal :=
  match d with
  | [] => None
  | (k', v) :: d' => if String.eqb k' k then Some v else dict_get d' k
  end.

(** [d[k] = v] *)
Fixpoint dict_set (k : string) (v : PyVal) (d : Dict) : Dict :=
  match d with
  | [] => [(k, v)]
  | (k', v') :: d' =>
      if String.eqb k' k then (k', v) :: d' else (k', v') :: dict_set k v d'
  end.

(** [str(z)] for an [int]. *)
Definition str_int (z : Z) : string := NilZero.string_of_int (Z.to_int z).

Definition repr_val (v : PyVal) : string :=
  match v with
  | PyNone => "None"
  | PyBool true => "True"
  | PyBool false => "False"
  | PyInt z => str_int z
  end.

(** [str(d)] for a dictionary, e.g. [{'id': 7, 'has_offset': True}]. *)
Definition repr_dict (d : Dict) : string :=
  "{" ++ String.concat ", "
           (map (fun kv => "'" ++ fst kv ++ "': " ++ repr_val (snd kv)) d)
      ++ "}".

(** [needle in haystack] for strings. *)
Fixpoint contains (needle haystack : string) : bool :=
  String.prefix needle haystack ||
  match haystack with
  | EmptyString => false
  | String _ rest => contains needle rest
  end.

(** [sorted(names)] for a list of strings. *)
Fixpoint insert_sorted (s : string) (l : list string) : list string :=
  match l with
  | [] => [s]
  | t :: l' => if String.leb s t then s :: l else t :: insert_sorted s l'
  end.

Definition sorted (l : list string) : list string :=
  fold_right insert_sorted [] l.

(* ================================================================= *)
(** ** Databases, sessions and the world *)

(** A table: its column names, the constrained columns of its primary key,
    and its rows (one cell per column, [None] being SQL [NULL]). *)
Record Table : Type := mkTable {
  columns : list string;
  pk_columns : list string;
  rows : list (list (option Z))
}.

(** A database catalog: tables of schema [public], sequences with their
    [last_value], and the names of the installed functions and aggregates. *)
Record Database : Type := mkDatabase {
  tables : list (string * Table);
  sequences : list (string * Z);
  routines : list string
}.

Fixpoint assoc {A : Type} (k : string) (l : list (string * A)) : option A :=
  match l with
  | [] => None
  | (k', v) :: l' => if String.eqb k' k then Some v else assoc k l'
  end.

(** The paging query [SQL_TEMPLATE_HASH] once its placeholders are filled. *)
Record PageQuery : Type := mkPageQuery {
  from_table : string;          (* SELECT * from {tablename} *)
  last_of : list string;        (* {next_offset_select_expr}: last(pk), ... *)
  offset_cols : list string;    (* {offset_expr}: pk >= :pk AND ... *)
  order_by : list string;       (* {order_expr} *)
  limit : Z                     (* LIMIT {self.chunk_size} *)
}.

(** The statements that the module sends through a session. *)
Inductive Statement : Type :=
| CountRows (table : string)
| PageHash (q : PageQuery) (params : Dict)
| SequenceNames
| SequenceValue (seq : string)
| InstallLast.

Inductive TxnState : Type := Idle | Active.

(** One side of the comparison: the session, engine and inspector bound to
    one database.  [executed] is the trace of statements sent through the
    session; [fault_at n] tells whether the connection fails on the
    statement number [n], and with which exception. *)
Record Session : Type := mkSession {
  db : Database;
  txn : TxnState;
  executed : list Statement;
  fault_at : nat -> option ExcClass
}.

(** The [DBDiff] object and the part of the process it acts on. *)
Record World : Type := mkWorld {
  firstsession : Session;
  secondsession : Session;
  chunk_size : Z;
  count_only : bool;
  slept : list Z;               (* the arguments of time.sleep, in order *)
  stdout_isatty : bool          (* sys.stdout.isatty() *)
}.

Inductive Which : Type := First | Second.

Definition session (s : Which) (w : World) : Session :=
  match s with First => firstsession w | Second => secondsession w end.

Definition set_session (s : Which) (x : Session) (w : World) : World :=
  match s with
  | First => mkWorld x (secondsession w) (chunk_size w) (count_only w)
                     (slept w) (stdout_isatty w)
  | Second => mkWorld (firstsession w) x (chunk_size w) (count_only w)
                      (slept w) (stdout_isatty w)
  end.

(* ================================================================= *)
(** ** The monad of methods *)

Inductive Outcome (A : Type) : Type :=
| Ret (a : A)
| Raise (e : ExcClass)
| OutOfFuel.

Arguments Ret {A} a.
Arguments Raise {A} e.
Arguments OutOfFuel {A}.

Definition M (A : Type) : Type := World -> Outcome A * World.

Definition ret {A : Type} (a : A) : M A := fun w => (Ret a, w).

Definition raise {A : Type} (e : ExcClass) : M A := fun w => (Raise e, w).

Definition out_of_fuel {A : Type} : M A := fun w => (OutOfFuel, w).

Definition bind {A B : Type} (m : M A) (k : A -> M B) : M B :=
  fun w =>
    match m w with
    | (Ret a, w1) => k a w1
    | (Raise e, w1) => (Raise e, w1)
    | (OutOfFuel, w1) => (OutOfFuel, w1)
    end.

Declare Scope py_scope.
Delimit Scope py_scope with py.
Notation "x <- m ;; k" := (bind m (fun x => k))
  (at level 100, m at next level, right associativity) : py_scope.
Notation "m ;;; k" := (bind m (fun _ => k))
  (at level 100, right associativity) : py_scope.
Open Scope py_scope.

(** Evaluating the name of an exception class. *)
Definition load_class (G : Namespace) (name : string) : M ExcClass :=
  match load_global G name with
  | Some c => ret c
  | None => raise NameError
  end.

(** [try: body  except <cname>: handler] *)
Definition try_except {A : Type} (G : Namespace)
    (body : M A) (cname : string) (handler : M A) : M A :=
  fun w =>
    match body w with
    | (Raise ex, w1) =>
        (c <- load_class G cname ;;
         if isinstance ex c then handler else raise ex) w1
    | r => r
    end.

(** [time.sleep(delay)] *)
Definition sleep (delay : Z) : M unit :=
  fun w => (Ret tt, mkWorld (firstsession w) (secondsession w) (chunk_size w)
                            (count_only w) (slept w ++ [delay])
                            (stdout_isatty w)).

(** Sending a statement through a session: the statement is traced and a
    transaction is open afterwards; the connection may fail, or the server
    may reject the statement, or the statement yields a result and a new
    catalog. *)
Definition run_statement {A : Type} (s : Which) (stmt : Statement)
    (sem : Database -> ExcClass + (A * Database)) : M A :=
  fun w =>
    let ses := session s w in
    let sent d := mkSession d Active (executed ses ++ [stmt]) (fault_at ses) in
    match fault_at ses (length (executed ses)) with
    | Some e => (Raise e, set_session s (sent (db ses)) w)
    | None =>
        match sem (db ses) with
        | inl e => (Raise e, set_session s (sent (db ses)) w)
        | inr (a, d') => (Ret a, set_session s (sent d') w)
        end
    end.

(** [session.rollback()] and [session.commit()] close the transaction. *)
Definition close_txn (s : Which) : M unit :=
  fun w =>
    let ses := session s w in
    (Ret tt, set_session s (mkSession (db ses) Idle (executed ses)
                                      (fault_at ses)) w).

Definition rollback (s : Which) : M unit := close_txn s.
Definition commit (s : Which) : M unit := close_txn s.

(* ================================================================= *)
(** ** retry *)

Definition max_tries : Z := 3.
Definition base_timeout : Z := 1.

(** The condition [not isinstance(ex, DatabaseError) and
    not isinstance(ex, OperationalError)]; [and] evaluates its second operand
    only when the first is true. *)
Definition not_transient (G : Namespace) (ex : ExcClass) : M bool :=
  cdb <- load_class G "DatabaseError" ;;
  if negb (isinstance ex cdb)
  then cop <- load_class G "OperationalError" ;;
       ret (negb (isinstance ex cop))
  else ret false.

(** The body of [retry]: [fuel] bounds the iterations of [while True]. *)
Fixpoint retry_loop {A : Type} (G : Namespace) (fn : M A)
    (fuel : nat) (i : Z) : M A :=
  match fuel with
  | O => out_of_fuel
  | S fuel' =>
      fun w =>
        match fn w with
        | (Raise ex, w1) =>
            (* except Exception as ex *)
            (giveup <- not_transient G ex ;;
             if giveup then raise ex
             else if i <? max_tries
                  then sleep (2 ^ i * base_timeout) ;;;
                       retry_loop G fn fuel' (i + 1)
                  else raise ex) w1
        | r => r
        end
  end.

(** [retry(fn)]: the loop makes at most [max_tries + 1] iterations (see
    [retry_loop_enough_fuel]). *)
Definition retry {A : Type} (G : Namespace) (fn : M A) : M A :=
  retry_loop G fn 4 0.

(* ================================================================= *)
(** ** SQL: the statements of the module, evaluated on a catalog *)

(** Three-valued logic of SQL conditions: [None] is unknown. *)
Definition sql_not (a : option bool) : option bool := option_map negb a.

Definition sql_and (a b : option bool) : option bool :=
  match a, b with
  | Some false, _ | _, Some false => Some false
  | Some true, Some true => Some true
  | _, _ => None
  end.

Definition sql_or (a b : option bool) : option bool :=
  match a, b with
  | Some true, _ | _, Some true => Some true
  | Some false, Some false => Some false
  | _, _ => None
  end.

(** [a >= b] on nullable integers. *)
Definition sql_ge (a b : option Z) : option bool :=
  match a, b with
  | Some x, Some y => Some (y <=? x)
  | _, _ => None
  end.

(** The cell of a row under a column name. *)
Fixpoint cell (cols : list string) (row : list (option Z)) (c : string)
  : option Z :=
  match cols, row with
  | k :: cols', v :: row' => if String.eqb k c then v else cell cols' row' c
  | _, _ => None
  end.

(** Binding [:name] as a boolean or as an integer.  A parameter that is
    missing from the dictionary is refused by the client library, one of the
    wrong type by the server. *)
Definition bind_bool (params : Dict) (name : string) : ExcClass + option bool :=
  match dict_get params name with
  | None => inl StatementError
  | Some PyNone => inr None
  | Some (PyBool b) => inr (Some b)
  | Some (PyInt _) => inl ProgrammingError
  end.

Definition bind_int (params : Dict) (name : string) : ExcClass + option Z :=
  match dict_get params name with
  | None => inl StatementError
  | Some PyNone => inr None
  | Some (PyInt z) => inr (Some z)
  | Some (PyBool _) => inl ProgrammingError
  end.

Fixpoint bind_ints (params : Dict) (names : list string)
  : ExcClass + list (string * option Z) :=
  match names with
  | [] => inr []
  | n :: names' =>
      match bind_int params n with
      | inl e => inl e
      | inr v =>
          match bind_ints params names' with
          | inl e => inl e
          | inr vs => inr ((n, v) :: vs)
          end
      end
  end.

(** [NOT :has_offset OR (pk1 >= :pk1 AND pk2 >= :pk2 ...)] on one row. *)
Definition where_clause (cols : list string) (has_offset : option bool)
    (bounds : list (string * option Z)) (row : list (option Z)) : option bool :=
  sql_or (sql_not has_offset)
         (fold_right sql_and (Some true)
            (map (fun b => sql_ge (cell cols row (fst b)) (snd b)) bounds)).

Definition selected (cols : list string) (has_offset : option bool)
    (bounds : list (string * option Z)) (row : list (option Z)) : bool :=
  match where_clause cols has_offset bounds row with
  | Some true => true
  | _ => false
  end.

(** [ORDER BY pk1, pk2, ...]: ascending, [NULL] last, column by column. *)
Definition cell_cmp (a b : option Z) : comparison :=
  match a, b with
  | Some x, Some y => x ?= y
  | Some _, None => Lt
  | None, Some _ => Gt
  | None, None => Eq
  end.

Fixpoint key_cmp (k1 k2 : list (option Z)) : comparison :=
  match k1, k2 with
  | a :: k1', b :: k2' =>
      match cell_cmp a b with
      | Eq => key_cmp k1' k2'
      | c => c
      end
  | _, _ => Eq
  end.

Definition sort_key (cols order : list string) (row : list (option Z))
  : list (option Z) :=
  map (cell cols row) order.

Definition row_leb (cols order : list string) (r1 r2 : list (option Z)) : bool :=
  match key_cmp (sort_key cols order r1) (sort_key cols order r2) with
  | Gt => false
  | _ => true
  end.

Fixpoint insert_row (cols order : list string) (r : list (option Z))
    (l : list (list (option Z))) : list (list (option Z)) :=
  match l with
  | [] => [r]
  | r' :: l' =>
      if row_leb cols order r r' then r :: l
      else r' :: insert_row cols order r l'
  end.

Definition order_rows (cols order : list string)
    (l : list (list (option Z))) : list (list (option Z)) :=
  fold_right (insert_row cols order) [] l.

Definition has_column (t : Table) (c : string) : bool :=
  existsb (String.eqb c) (columns t).

Definition has_routine (d : Database) (name : string) : bool :=
  existsb (String.eqb name) (routines d).

(** The inner [SELECT * ... WHERE ... ORDER BY ... LIMIT ...] of the paging
    query: the rows of the page, in order. *)
Definition page_rows (d : Database) (q : PageQuery) (params : Dict)
  : ExcClass + list (list (option Z)) :=
  match bind_bool params "has_offset" with
  | inl e => inl e
  | inr has_offset =>
      match bind_ints params (offset_cols q) with
      | inl e => inl e
      | inr bounds =>
          match assoc (from_table q) (tables d) with
          | None => inl ProgrammingError
          | Some t =>
              if negb (forallb (has_column t)
                         (last_of q ++ offset_cols q ++ order_by q))
              then inl ProgrammingError
              else if limit q <? 0 then inl DataError
              else inr (firstn (Z.to_nat (limit q))
                          (order_rows (columns t) (order_by q)
                             (filter (selected (columns t) has_offset bounds)
                                     (rows t))))
          end
      end
  end.

(** Text of a row (the whole row [t] cast to [varchar]) and of an array of
    texts. *)
Definition cell_text (v : option Z) : string :=
  match v with
  | Some z => str_int z
  | None => ""
  end.

Definition row_text (row : list (option Z)) : string :=
  "(" ++ String.concat "," (map cell_text row) ++ ")".

Definition array_text (l : list string) : string :=
  "{" ++ String.concat "," l ++ "}".

(** The aggregate [last]: its transition function [last_agg] is strict and
    returns its second argument, so the aggregate is the last non-null input
    and is [NULL] on no input. *)
Definition last_agg (state input : option Z) : option Z :=
  match input with
  | Some _ => input
  | None => state
  end.

Definition last (inputs : list (option Z)) : option Z :=
  fold_left last_agg inputs None.

(** What a cursor holds after the paging query: [rowcount] and the row that
    [fetchone()] returns, made of the hash and of the [last(pk)] values. *)
Record PageResult : Type := mkPageResult {
  rowcount : Z;
  fetchone : option (option string * list (option Z))
}.

Section SQL.

(** The server's [md5] on text. *)
Variable md5 : string -> string.

(** The [hash] column: [md5] of the text of [array_agg] of the [md5] of each
    row's text.  [array_agg] is [NULL] on no row, and so is its digest. *)
Definition page_hash (page : list (list (option Z))) : option string :=
  match page with
  | [] => None
  | _ => Some (md5 (array_text (map (fun r => md5 (row_text r)) page)))
  end.

(** The paging query.  It aggregates without [GROUP BY], so its result is
    always exactly one row. *)
Definition page_query (q : PageQuery) (params : Dict) (d : Database)
  : ExcClass + (PageResult * Database) :=
  if negb (has_routine d "public.last") then inl ProgrammingError
  else
    match page_rows d q params with
    | inl e => inl e
    | inr page =>
        match assoc (from_table q) (tables d) with
        | None => inl ProgrammingError
        | Some t =>
            inr (mkPageResult 1
                   (Some (page_hash page,
                          map (fun pk => last (map (fun r => cell (columns t) r pk)
                                                   page))
                              (last_of q))),
                 d)
        end
    end.

End SQL.

(** [query.count()] *)
Definition count_query (table : string) (d : Database)
  : ExcClass + (Z * Database) :=
  match assoc table (tables d) with
  | None => inl ProgrammingError
  | Some t => inr (Z.of_nat (length (rows t)), d)
  end.

(** [SELECT c.relname FROM pg_class c WHERE c.relkind = 'S'] *)
Definition sequence_names_query (d : Database)
  : ExcClass + (list string * Database) :=
  inr (map fst (sequences d), d).

(** [SELECT last_value FROM {seq_name}], then [.fetchone()[0]] *)
Definition sequence_value_query (seq : string) (d : Database)
  : ExcClass + (Z * Database) :=
  match assoc seq (sequences d) with
  | None => inl ProgrammingError
  | Some v => inr (v, d)
  end.

(** The two commands of [stmt] in [create_aggregate_functions]:
    [CREATE OR REPLACE FUNCTION public.last_agg] defines or redefines the
    function; [CREATE AGGREGATE public.last] is refused when the aggregate is
    already there.  Both run as one statement, so a refusal leaves the catalog
    as it was. *)
Definition create_or_replace_function (name : string) (d : Database)
  : Database :=
  if has_routine d name then d
  else mkDatabase (tables d) (sequences d) (routines d ++ [name]).

Definition create_aggregate (name : string) (d : Database)
  : ExcClass + Database :=
  if has_routine d name then inl ProgrammingError
  else inr (mkDatabase (tables d) (sequences d) (routines d ++ [name])).

Definition install_last_query (d : Database) : ExcClass + (unit * Database) :=
  match create_aggregate "public.last"
          (create_or_replace_function "public.last_agg" d) with
  | inl e => inl e
  | inr d' => inr (tt, d')
  end.

(* ================================================================= *)
(** ** DBDiff *)

(** The first component of the pairs that the diff methods return:
    [True], [False] and [None]. *)
Inductive Verdict : Type :=
| Match
| Mismatch
| Inconclusive.

(** [result is False] *)
Definition is_False (v : Verdict) : bool :=
  match v with
  | Mismatch => true
  | _ => false
  end.

(** [Table(tablename, meta, autoload=True)]: reflection through the engine
    of one side; it raises when the catalog has no such table. *)
Definition reflect_table (s : Which) (tablename : string) : M Table :=
  fun w =>
    match assoc tablename (tables (db (session s w))) with
    | Some t => (Ret t, w)
    | None => (Raise NoSuchTableError, w)
    end.

(** [inspector.get_pk_constraint(tablename)['constrained_columns']] *)
Definition get_pk_constraint (s : Which) (tablename : string)
  : M (list string) :=
  t <- reflect_table s tablename ;;
  ret (pk_columns t).

(** [inspector.get_table_names(schema="public")] *)
Definition get_table_names (s : Which) : M (list string) :=
  fun w => (Ret (map fst (tables (db (session s w)))), w).

(** [query.count()] *)
Definition count (s : Which) (tablename : string) : M Z :=
  run_statement s (CountRows tablename) (count_query tablename).

Definition get_chunk_size : M Z := fun w => (Ret (chunk_size w), w).
Definition get_count_only : M bool := fun w => (Ret (count_only w), w).

(** The filled template [SQL_TEMPLATE_HASH]. *)
Definition SQL_TEMPLATE_HASH (tablename : string) (pks : list string)
    (chunk : Z) : PageQuery :=
  mkPageQuery tablename pks pks pks chunk.

(** [{pk: None for pk in pks}] *)
Definition initial_offsets (pks : list string) : Dict :=
  fold_left (fun d pk => dict_set pk PyNone d) pks [].

Definition py_of_cell (v : option Z) : PyVal :=
  match v with
  | Some z => PyInt z
  | None => PyNone
  end.

(** [for idx, pk in enumerate(pks): offsets[pk] = firstpks[idx]] *)
Fixpoint store_cursor (pks : list string) (idx : nat)
    (firstpks : list (option Z)) (offsets : Dict) : M Dict :=
  match pks with
  | [] => ret offsets
  | pk :: pks' =>
      match nth_error firstpks idx with
      | None => raise IndexError
      | Some v =>
          store_cursor pks' (S idx) firstpks (dict_set pk (py_of_cell v) offsets)
      end
  end.

(** [(hash, *pks) = result.fetchone()] *)
Definition unpack_row (r : PageResult)
  : M (option string * list (option Z)) :=
  match fetchone r with
  | Some row => ret row
  | None => raise TypeError
  end.

Definition hash_eqb (a b : option string) : bool :=
  match a, b with
  | Some x, Some y => String.eqb x y
  | None, None => true
  | _, _ => false
  end.

Definition cell_eqb (a b : option Z) : bool :=
  match a, b with
  | Some x, Some y => x =? y
  | None, None => true
  | _, _ => false
  end.

Fixpoint cells_eqb (l1 l2 : list (option Z)) : bool :=
  match l1, l2 with
  | [], [] => true
  | a :: l1', b :: l2' => cell_eqb a b && cells_eqb l1' l2'
  | _, _ => false
  end.

(** [StatusUpdate]: the attribute [spinner] is set by [__init__] only when
    standard output is a terminal. *)
Record StatusUpdate : Type := mkStatusUpdate {
  spinner : option unit
}.

Definition StatusUpdate_init (title : string) : M StatusUpdate :=
  fun w =>
    (Ret (mkStatusUpdate (if stdout_isatty w then Some tt else None)), w).

(** [StatusUpdate.complete]: it starts by reading [self.spinner]. *)
Definition StatusUpdate_complete (self : StatusUpdate) (success : Verdict)
    (message : string) : M unit :=
  match spinner self with
  | Some _ => ret tt
  | None => raise AttributeError
  end.

Section DBDiff.

Variable G : Namespace.
Variable md5 : string -> string.

Definition execute_page (s : Which) (q : PageQuery) (offsets : Dict)
  : M PageResult :=
  run_statement s (PageHash q offsets) (page_query md5 q offsets).

(** The loop [while not done] of [diff_table_data]; [fuel] bounds its
    iterations. *)
Fixpoint page_loop (fuel : nat) (tablename : string) (pks : list string)
    (done : bool) (position : Z) (offsets : Dict) : M (Verdict * string) :=
  if done then ret (Match, "data is identical.")
  else
    match fuel with
    | O => out_of_fuel
    | S fuel' =>
        chunk <- get_chunk_size ;;
        let q := SQL_TEMPLATE_HASH tablename pks chunk in
        let offsets := dict_set "has_offset" (PyBool (0 <? position)) offsets in
        firstresult <- retry G (execute_page First q offsets) ;;
        secondresult <- retry G (execute_page Second q offsets) ;;
        if negb (rowcount firstresult =? rowcount secondresult)
        then ret (Mismatch,
                  "row count mismatch at row " ++ str_int position
                  ++ "; offsets: " ++ repr_dict offsets)
        else
          first_row <- unpack_row firstresult ;;
          second_row <- unpack_row secondresult ;;
          let '(firsthash, firstpks) := first_row in
          let '(secondhash, secondpks) := second_row in
          if negb (hash_eqb firsthash secondhash)
          then ret (Mismatch,
                    "data hash are different at row " ++ str_int position
                    ++ "; offsets: " ++ repr_dict offsets)
          else if negb (cells_eqb firstpks secondpks)
          then ret (Mismatch,
                    "data pks are different  at row " ++ str_int position
                    ++ ";offsets: " ++ repr_dict offsets)
          else
            chunk' <- get_chunk_size ;;
            offsets' <- store_cursor pks 0 firstpks offsets ;;
            page_loop fuel' tablename pks done (position + chunk') offsets'
    end.

(** The body of [if self.count_only is True:]. *)
Definition count_only_diff (tablename : string) : M (Verdict * string) :=
  _ <- reflect_table First tablename ;;
  _ <- reflect_table Second tablename ;;
  first_table_count <- count First tablename ;;
  second_table_count <- count Second tablename ;;
  if negb (first_table_count =? second_table_count)
  then second_again <- count Second tablename ;;
       ret (Mismatch,
            "counts are different " ++ str_int first_table_count
            ++ " != " ++ str_int second_again)
  else if first_table_count =? 0
  then ret (Inconclusive, "tables are empty")
  else ret (Match, "Counts are the same").

(** [diff_table_data]: [None] out of the [try] block means that the block
    ended without a [return]. *)
Definition diff_table_data (fuel : nat) (tablename : string)
  : M (Verdict * string) :=
  early <- try_except G
             (only_counts <- get_count_only ;;
              if only_counts
              then r <- count_only_diff tablename ;; ret (Some r)
              else ret None)
             "NoSuchTableError"
             (ret (Some (Mismatch, "table is missing"))) ;;
  match early with
  | Some r => ret r
  | None =>
      pks <- get_pk_constraint First tablename ;;
      match pks with
      | [] => ret (Inconclusive,
                   "no primary key(s) on this table. Comparison is not possible.")
      | _ => page_loop fuel tablename pks false 0 (initial_offsets pks)
      end
  end.

(** [get_all_sequences] *)
Definition get_all_sequences : M (list string) :=
  run_statement First SequenceNames sequence_names_query.

Definition sequence_value (s : Which) (seq_name : string) : M Z :=
  run_statement s (SequenceValue seq_name) (sequence_value_query seq_name).

(** The [try] block of [diff_sequence]. *)
Definition fetch_sequence_values (seq_name : string) : M (Z * Z) :=
  firstvalue <- retry G (sequence_value First seq_name) ;;
  secondvalue <- retry G (sequence_value Second seq_name) ;;
  ret (firstvalue, secondvalue).

Definition sequence_missing_message : string :=
  "sequence doesnt exist in second database.".

Definition diff_sequence (seq_name : string) : M (Verdict * string) :=
  r <- try_except G
         (v <- fetch_sequence_values seq_name ;; ret (inl v))
         "ProgrammingError"
         (rollback First ;;;
          rollback Second ;;;
          ret (inr (Mismatch, sequence_missing_message))) ;;
  match r with
  | inr early => ret early
  | inl (firstvalue, secondvalue) =>
      if firstvalue <? secondvalue
      then ret (Inconclusive,
                "first sequence is less than the second("
                ++ str_int firstvalue ++ " vs " ++ str_int secondvalue ++ ").")
      else if secondvalue <? firstvalue
      then ret (Mismatch,
                "first sequence is greater than the second("
                ++ str_int firstvalue ++ " vs " ++ str_int secondvalue ++ ").")
      else ret (Match,
                "sequences are identical- (" ++ str_int firstvalue ++ ").")
  end.

(** The [for] loop shared by [diff_all_sequences] and [diff_all_table_data]:
    one [StatusUpdate] per entity, and a failure counted for each [False]. *)
Fixpoint analyse_all (kind : string) (diff : string -> M (Verdict * string))
    (entities : list string) (failures : Z) : M Z :=
  match entities with
  | [] => ret failures
  | entity :: rest =>
      status_update <- StatusUpdate_init ("Analysing " ++ kind ++ " " ++ entity) ;;
      r <- diff entity ;;
      let '(result, message) := r in
      StatusUpdate_complete status_update result (entity ++ " - " ++ message) ;;;
      analyse_all kind diff rest
                  (if is_False result then failures + 1 else failures)
  end.

Definition exit_status (failures : Z) : Z :=
  if 0 <? failures then 1 else 0.

Definition diff_all_sequences : M Z :=
  names <- get_all_sequences ;;
  failures <- analyse_all "sequence" diff_sequence (sorted names) 0 ;;
  ret (exit_status failures).

(** [create_aggregate_functions] *)
Definition create_aggregate_functions : M unit :=
  run_statement First InstallLast install_last_query ;;;
  run_statement Second InstallLast install_last_query ;;;
  commit First ;;;
  commit Second.

Definition diff_all_table_data (fuel : nat) : M Z :=
  create_aggregate_functions ;;;
  names <- get_table_names First ;;
  failures <- analyse_all "table" (diff_table_data fuel) (sorted names) 0 ;;
  ret (exit_status failures).

End DBDiff.

(* ================================================================= *)
(** ** Vocabulary of the properties *)

(** A call of [diff_table_data] returns [r] when some number of iterations of
    its loop is enough for it to return [r]. *)
Definition table_diff_returns (G : Namespace) (md5 : string -> string)
    (tablename : string) (w : World) (r : Verdict * string) : Prop :=
  exists fuel w', diff_table_data G md5 fuel tablename w = (Ret r, w').

(** The verdicts that the entities of a run produce, one after the other,
    each under a [StatusUpdate] created on a terminal. *)
Inductive Verdicts (diff : string -> M (Verdict * string))
  : list string -> World -> list Verdict -> World -> Prop :=
| Verdicts_nil : forall w, Verdicts diff [] w [] w
| Verdicts_cons : forall entity rest w v msg w1 vs w2,
    stdout_isatty w = true ->
    diff entity w = (Ret (v, msg), w1) ->
    Verdicts diff rest w1 vs w2 ->
    Verdicts diff (entity :: rest) w (v :: vs) w2.

(** The statements of the paging query. *)
Definition is_paging (stmt : Statement) : bool :=
  match stmt with
  | PageHash _ _ => true
  | _ => false
  end.

(** [w'] differs from [w] in the traces only, by statements that satisfy
    [P]. *)
Definition sent_only (P : Statement -> bool) (w w' : World) : Prop :=
  exists l1 l2,
    executed (firstsession w') = (executed (firstsession w) ++ l1)%list /\
    executed (secondsession w') = (executed (secondsession w) ++ l2)%list /\
    forallb P l1 = true /\ forallb P l2 = true.

(** A session whose connection never fails. *)
Definition healthy (s : Session) : Prop := forall n, fault_at s n = None.

(** The world after [time.sleep(delay)]. *)
Definition slept_for (delay : Z) (w : World) : World := snd (sleep delay w).

(** The loop invariant on the cursor: every primary-key column is bound to
    an integer or to [None]. *)
Definition cursor_bound (offsets : Dict) (pk : string) : Prop :=
  exists v, dict_get offsets pk = Some (py_of_cell v).

(** The page that the paging query selects from the rows [rws] of a table
    with columns [cols]. *)
Definition page_of (cols : list string) (rws : list (list (option Z)))
    (pks : list string) (chunk : Z) (has_offset : option bool)
    (bounds : list (string * option Z)) : list (list (option Z)) :=
  firstn (Z.to_nat chunk)
         (order_rows cols pks (filter (selected cols has_offset bounds) rws)).

(** The statements other than the paging query. *)
Definition not_paging (stmt : Statement) : bool := negb (is_paging stmt).

(** The text returned for a table without primary key. *)
Definition no_primary_key_message : string :=
  "no primary key(s) on this table. Comparison is not possible.".

(** A computation whose statements all satisfy [P]. *)
Definition sends_only (P : Statement -> bool) {A : Type} (m : M A) : Prop :=
  forall w r w', m w = (r, w') -> sent_only P w w'.

(** A statement that leaves the catalog as it is. *)
Definition read_only {A : Type} (sem : Database -> ExcClass + (A * Database))
  : Prop :=
  forall d a d', sem d = inr (a, d') -> d' = d.

(** [w'] has the catalogs, the connections and the configuration of [w]:
    only the traces, the transactions and the sleeps may differ. *)
Definition same_data (w w' : World) : Prop :=
  db (firstsession w') = db (firstsession w) /\
  db (secondsession w') = db (secondsession w) /\
  fault_at (firstsession w') = fault_at (firstsession w) /\
  fault_at (secondsession w') = fault_at (secondsession w) /\
  chunk_size w' = chunk_size w /\
  count_only w' = count_only w /\
  stdout_isatty w' = stdout_isatty w.

(** A computation that changes no catalog. *)
Definition keeps_data {A : Type} (m : M A) : Prop :=
  forall w r w', m w = (r, w') -> same_data w w'.

(** A computation that does not sleep. *)
Definition never_sleeps {A : Type} (m : M A) : Prop :=
  forall w r w', m w = (r, w') -> slept w' = slept w.

(** A computation that ends with a result or an exception. *)
Definition terminates {A : Type} (m : M A) : Prop :=
  forall w, fst (m w) <> OutOfFuel.

(** The lookup of a sequence goes through: the connection works and the
    catalog has the sequence, with value [v]. *)
Definition lookup_succeeds (s : Which) (seq : string) (w : World) (v : Z)
  : Prop :=
  fault_at (session s w) (length (executed (session s w))) = None /\
  assoc seq (sequences (db (session s w))) = Some v.

(** The value of a key column in a row of a table. *)
Definition key_of (t : Table) (row : list (option Z)) (pk : string)
  : option Z :=
  cell (columns t) row pk.

(** The first page of a table: its first [chunk] rows in the order of the
    key columns [pks]. *)
Definition first_page (t : Table) (pks : list string) (chunk : Z)
  : list (list (option Z)) :=
  firstn (Z.to_nat chunk) (order_rows (columns t) pks (rows t)).

(** The [last(pk)] values of a page. *)
Definition last_keys (t : Table) (pks : list string)
    (page : list (list (option Z))) : list (option Z) :=
  map (fun pk => last (map (fun r => cell (columns t) r pk) page)) pks.

(** The parameters of the first round. *)
Definition first_offsets (pks : list string) : Dict :=
  dict_set "has_offset" (PyBool false) (initial_offsets pks).

(* ================================================================= *)
(** ** Scenarios *)

Definition no_fault : nat -> option ExcClass := fun _ => None.

Definition always_fault (e : ExcClass) : nat -> option ExcClass :=
  fun _ => Some e.

(** A stand-in for the server's digest in the scenarios. *)
Definition plain_md5 (s : string) : string := "md5:" ++ s.

Definition fresh_session (d : Database) : Session :=
  mkSession d Idle [] no_fault.

(** The namespace that the module would have, had it imported
    [DatabaseError] too. *)
Definition globals_with_DatabaseError : Namespace :=
  ("DatabaseError", DatabaseError) :: module_globals.

(** A table [orders(id, amount)] with primary key [id]. *)
Definition orders (ids : list Z) : Table :=
  mkTable ["id"; "amount"] ["id"] (map (fun i => [Some i; Some (10 * i)]) ids).

(** A table [events(day, n)] without primary key. *)
Definition events (days : list Z) : Table :=
  mkTable ["day"; "n"] [] (map (fun i => [Some i; Some 1]) days).

(** A table [lines(a, b)] with the composite primary key [(a, b)]. *)
Definition lines (keys : list (Z * Z)) : Table :=
  mkTable ["a"; "b"] ["a"; "b"] (map (fun k => [Some (fst k); Some (snd k)]) keys).

Definition installed : list string := ["public.last_agg"; "public.last"].

(** A database with the sequence [orders_id_seq] at 500, or without it. *)
Definition seq_db (value : option Z) : Database :=
  mkDatabase []
    (match value with Some v => [("orders_id_seq", v)] | None => [] end)
    installed.

(** Both sides hold the sequence; the connection of the second side fails
    with [OperationalError] on every statement. *)
Definition world_flaky : World :=
  mkWorld (fresh_session (seq_db (Some 500)))
          (mkSession (seq_db (Some 500)) Idle [] (always_fault OperationalError))
          100000 false [] true.

(** Both sides hold the sequence, at 500 and at [b]. *)
Definition world_sequences (b : Z) : World :=
  mkWorld (fresh_session (seq_db (Some 500))) (fresh_session (seq_db (Some b)))
          100000 false [] true.

(** The second database lacks the sequence. *)
Definition world_missing_sequence : World :=
  mkWorld (fresh_session (seq_db (Some 500))) (fresh_session (seq_db None))
          100000 false [] true.

(** Two databases on which [create_aggregate_functions] has never run. *)
Definition world_uninstalled : World :=
  mkWorld (fresh_session (mkDatabase [("orders", orders [1; 2])] [] []))
          (fresh_session (mkDatabase [("orders", orders [1; 2])] [] []))
          100000 false [] true.

(** A run in count-only mode on a terminal: three sequences (equal, behind,
    ahead) and two tables (same counts, both empty). *)
Definition world_run : World :=
  mkWorld
    (fresh_session
       (mkDatabase [("orders", orders [1; 2]); ("events", events [])]
                   [("c_seq", 9); ("a_seq", 5); ("b_seq", 7)] []))
    (fresh_session
       (mkDatabase [("orders", orders [3; 4]); ("events", events [])]
                   [("c_seq", 3); ("a_seq", 5); ("b_seq", 8)] []))
    100000 true [] true.

(** Both databases hold the same table [orders], with the aggregate
    installed. *)
Definition orders_db (ids : list Z) : Database :=
  mkDatabase [("orders", orders ids)] [] installed.

Definition world_orders (ids : list Z) (chunk : Z) (only_counts : bool)
  : World :=
  mkWorld (fresh_session (orders_db ids)) (fresh_session (orders_db ids))
          chunk only_counts [] true.

(** The rows of a page of [orders]. *)
Definition order_row (i : Z) : list (option Z) := [Some i; Some (10 * i)].

(** Both databases hold the same table [lines], keyed by [(a, b)]. *)
Definition lines_db (keys : list (Z * Z)) : Database :=
  mkDatabase [("lines", lines keys)] [] installed.

(** Both databases hold the same table [events], which has no primary key. *)
Definition world_events (days : list Z) (only_counts : bool) : World :=
  mkWorld (fresh_session (mkDatabase [("events", events days)] [] installed))
          (fresh_session (mkDatabase [("events", events days)] [] installed))
          100000 only_counts [] true.


(** The table [orders] is on the first database only. *)
Definition world_orders_missing_on_target : World :=
  mkWorld (fresh_session (orders_db [1; 2; 3]))
          (fresh_session (mkDatabase [] [] installed))
          2 false [] true.

(** The connection of the second side fails once, on its first statement. *)
Definition fault_once (e : ExcClass) : nat -> option ExcClass :=
  fun n => match n with O => Some e | S _ => None end.

Definition world_hiccup : World :=
  mkWorld (fresh_session (seq_db (Some 500)))
          (mkSession (seq_db (Some 620)) Idle [] (fault_once OperationalError))
          100000 false [] true.

(** The two databases hold [orders] with different rows. *)
Definition world_orders_differ (ids1 ids2 : list Z) (chunk : Z) : World :=
  mkWorld (fresh_session (orders_db ids1)) (fresh_session (orders_db ids2))
          chunk false [] true.

(** Only the second database has the aggregate already. *)
Definition world_half_installed : World :=
  mkWorld (fresh_session (mkDatabase [("orders", orders [1; 2])] [] []))
          (fresh_session (orders_db [1; 2]))
          100000 false [] true.

(** The run of [world_run], off a terminal. *)
Definition world_run_piped : World :=
  mkWorld (firstsession world_run) (secondsession world_run)
          100000 true [] false.

(** Two databases without any sequence, off a terminal. *)
Definition world_no_sequence : World :=
  mkWorld (fresh_session (orders_db [1; 2])) (fresh_session (orders_db [1; 2]))
          100000 false [] false.

(** The sequences [a_seq] and [c_seq] are on both databases, [b_seq] on the
    first only. *)
Definition world_one_missing_sequence : World :=
  mkWorld
    (fresh_session (mkDatabase [] [("c_seq", 9); ("a_seq", 5); ("b_seq", 7)] []))
    (fresh_session (mkDatabase [] [("c_seq", 3); ("a_seq", 5)] []))
    100000 false [] true.

(** One sequence and one table, both mismatching (the sequence at 500 against
    400, the table with two rows against one), in count-only mode, on a
    terminal or not. *)
Definition world_mismatch (terminal : bool) : World :=
  mkWorld
    (fresh_session
       (mkDatabase [("orders", orders [1; 2])] [("orders_id_seq", 500)] []))
    (fresh_session
       (mkDatabase [("orders", orders [1])] [("orders_id_seq", 400)] []))
    100000 true [] terminal.

(* ================================================================= *)
(** ** retry *)

Lemma retry_returns {A : Type} (G : Namespace) (fn : M A) w a w1 :
  fn w = (Ret a, w1) -> retry G fn w = (Ret a, w1).
Proof.
  intros Hfn. unfold retry. simpl. rewrite Hfn. reflexivity.
Qed.

(** In the namespace of the module, the first exception out of [fn] ends
    [retry] with [NameError]: the handler names [DatabaseError], which the
    module never binds. *)
Lemma retry_module_globals_raises {A : Type} (fn : M A) w e w1 :
  fn w = (Raise e, w1) -> retry module_globals fn w = (Raise NameError, w1).
Proof.
  intros Hfn. unfold retry. simpl. rewrite Hfn. reflexivity.
Qed.

(** The loop never needs more than [max_tries + 1] iterations. *)
Lemma retry_loop_enough_fuel {A : Type} (G : Namespace) (fn : M A) :
  forall fuel i w, 0 <= i <= max_tries -> (Z.to_nat (max_tries - i) < fuel)%nat ->
    retry_loop G fn fuel i w = retry_loop G fn (S (Z.to_nat (max_tries - i))) i w.
Proof.
  induction fuel as [|fuel IH]; intros i w Hi Hfuel; [lia|].
  cbn [retry_loop].
  destruct (fn w) as [[a|ex|] w1]; try reflexivity.
  unfold bind.
  destruct (not_transient G ex w1) as [[giveup| |] w2]; try reflexivity.
  destruct giveup; try reflexivity.
  destruct (i <? max_tries) eqn:Hlt; try reflexivity.
  apply Z.ltb_lt in Hlt.
  unfold sleep.
  replace (Z.to_nat (max_tries - i)) with (S (Z.to_nat (max_tries - (i + 1)))) by lia.
  apply IH; lia.
Qed.

Lemma retry_loop_again {A : Type} (G : Namespace) (fn : M A) fuel i w ex w1 :
  fn w = (Raise ex, w1) ->
  not_transient G ex w1 = (Ret false, w1) ->
  i < max_tries ->
  retry_loop G fn (S fuel) i w =
  retry_loop G fn fuel (i + 1) (slept_for (2 ^ i * base_timeout) w1).
Proof.
  intros Hfn Hnt Hi. cbn [retry_loop]. rewrite Hfn. unfold bind. rewrite Hnt.
  apply Z.ltb_lt in Hi. rewrite Hi. reflexivity.
Qed.

Lemma retry_loop_exhausted {A : Type} (G : Namespace) (fn : M A) fuel i w ex w1 :
  fn w = (Raise ex, w1) ->
  not_transient G ex w1 = (Ret false, w1) ->
  max_tries <= i ->
  retry_loop G fn (S fuel) i w = (Raise ex, w1).
Proof.
  intros Hfn Hnt Hi. cbn [retry_loop]. rewrite Hfn. unfold bind. rewrite Hnt.
  apply Z.ltb_ge in Hi. rewrite Hi. reflexivity.
Qed.

(** With [DatabaseError] bound to SQLAlchemy's class, a thunk that always
    raises [OperationalError], changing the world by [tick] at each call, is
    called four times, with sleeps of 1, 2 and 4 seconds in between, and its
    exception comes out. *)
Lemma retry_exhausts {A : Type} (G : Namespace) (fn : M A) (tick : World -> World) :
  load_global G "DatabaseError" = Some DatabaseError ->
  (forall w, fn w = (Raise OperationalError, tick w)) ->
  forall w,
    retry G fn w =
    (Raise OperationalError,
     tick (slept_for 4 (tick (slept_for 2 (tick (slept_for 1 (tick w))))))).
Proof.
  intros HG Hfn w. unfold retry.
  assert (Hnt : forall w0, not_transient G OperationalError w0 = (Ret false, w0)).
  { intros w0. unfold not_transient, load_class, bind. rewrite HG. reflexivity. }
  rewrite (retry_loop_again G fn 3 0 w _ _ (Hfn _) (Hnt _)) by (unfold max_tries; lia).
  rewrite (retry_loop_again G fn 2 _ _ _ _ (Hfn _) (Hnt _)) by (unfold max_tries; lia).
  rewrite (retry_loop_again G fn 1 _ _ _ _ (Hfn _) (Hnt _)) by (unfold max_tries; lia).
  rewrite (retry_loop_exhausted G fn 0 _ _ _ _ (Hfn _) (Hnt _)) by (unfold max_tries; lia).
  reflexivity.
Qed.

Lemma bind_ret_eq {A B : Type} (m : M A) (k : A -> M B) w a w1 :
  m w = (Ret a, w1) -> bind m k w = k a w1.
Proof. intros H. unfold bind. rewrite H. reflexivity. Qed.

Lemma bind_raise_eq {A B : Type} (m : M A) (k : A -> M B) w e w1 :
  m w = (Raise e, w1) -> bind m k w = (Raise e, w1).
Proof. intros H. unfold bind. rewrite H. reflexivity. Qed.

Lemma try_except_ret {A : Type} G (body handler : M A) cname w a w1 :
  body w = (Ret a, w1) -> try_except G body cname handler w = (Ret a, w1).
Proof. intros H. unfold try_except. rewrite H. reflexivity. Qed.

Lemma try_except_caught {A : Type} G (body handler : M A) cname c w e w1 :
  body w = (Raise e, w1) ->
  load_global G cname = Some c ->
  isinstance e c = true ->
  try_except G body cname handler w = handler w1.
Proof.
  intros H HG Hi. unfold try_except, load_class, bind. rewrite H, HG.
  unfold ret. rewrite Hi. reflexivity.
Qed.

Lemma run_statement_ok {A : Type} (s : Which) stmt
    (sem : Database -> ExcClass + (A * Database)) w a d' :
  fault_at (session s w) (length (executed (session s w))) = None ->
  sem (db (session s w)) = inr (a, d') ->
  run_statement s stmt sem w =
  (Ret a, set_session s (mkSession d' Active (executed (session s w) ++ [stmt])
                                   (fault_at (session s w))) w).
Proof.
  intros Hf Hs. unfold run_statement. rewrite Hf, Hs. reflexivity.
Qed.

Lemma fetch_sequence_values_ok G seq w a b :
  assoc seq (sequences (db (firstsession w))) = Some a ->
  assoc seq (sequences (db (secondsession w))) = Some b ->
  fault_at (firstsession w) (length (executed (firstsession w))) = None ->
  fault_at (secondsession w) (length (executed (secondsession w))) = None ->
  exists w', fetch_sequence_values G seq w = (Ret (a, b), w').
Proof.
  intros Ha Hb Hf1 Hf2. unfold fetch_sequence_values.
  eexists.
  erewrite bind_ret_eq.
  2:{ apply retry_returns. unfold sequence_value.
      apply run_statement_ok; [exact Hf1|].
      unfold sequence_value_query. simpl session. rewrite Ha. reflexivity. }
  erewrite bind_ret_eq.
  2:{ apply retry_returns. unfold sequence_value.
      apply run_statement_ok; [exact Hf2|].
      unfold sequence_value_query. simpl. rewrite Hb. reflexivity. }
  reflexivity.
Qed.

(** C5: for a sequence with value [a] on the first database and [b] on the
    second, reached over connections that do not fail, [diff_sequence]
    returns [Match] exactly when [a = b], [Inconclusive] exactly when
    [a < b] and [Mismatch] exactly when [a > b], each with its message. *)
Theorem diff_sequence_ordering G seq w a b :
  assoc seq (sequences (db (firstsession w))) = Some a ->
  assoc seq (sequences (db (secondsession w))) = Some b ->
  fault_at (firstsession w) (length (executed (firstsession w))) = None ->
  fault_at (secondsession w) (length (executed (secondsession w))) = None ->
  exists v msg w',
    diff_sequence G seq w = (Ret (v, msg), w') /\
    (v = Match <-> a = b) /\
    (v = Inconclusive <-> a < b) /\
    (v = Mismatch <-> a > b) /\
    msg = match v with
          | Match => "sequences are identical- (" ++ str_int a ++ ")."
          | Inconclusive =>
              "first sequence is less than the second("
              ++ str_int a ++ " vs " ++ str_int b ++ ")."
          | Mismatch =>
              "first sequence is greater than the second("
              ++ str_int a ++ " vs " ++ str_int b ++ ")."
          end.
Proof.
  intros Ha Hb Hf1 Hf2.
  destruct (fetch_sequence_values_ok G seq w a b Ha Hb Hf1 Hf2) as [w' Hfetch].
  unfold diff_sequence.
  erewrite bind_ret_eq.
  2:{ apply try_except_ret. erewrite bind_ret_eq by exact Hfetch. reflexivity. }
  cbv beta iota.
  destruct (a <? b) eqn:Hab.
  - apply Z.ltb_lt in Hab.
    exists Inconclusive. do 2 eexists. split; [reflexivity|].
    repeat split; intros; try discriminate; try lia; reflexivity.
  - apply Z.ltb_ge in Hab. destruct (b <? a) eqn:Hba.
    + apply Z.ltb_lt in Hba.
      exists Mismatch. do 2 eexists. split; [reflexivity|].
      repeat split; intros; try discriminate; try lia; reflexivity.
    + apply Z.ltb_ge in Hba.
      exists Match. do 2 eexists. split; [reflexivity|].
      repeat split; intros; try discriminate; try lia; reflexivity.
Qed.

Lemma diff_sequence_ordering_witness :
  exists v msg w',
    diff_sequence module_globals "orders_id_seq" (world_sequences 620)
    = (Ret (v, msg), w') /\
    (v = Match <-> 500 = 620) /\
    (v = Inconclusive <-> 500 < 620) /\
    (v = Mismatch <-> 500 > 620) /\
    msg = match v with
          | Match => "sequences are identical- (" ++ str_int 500 ++ ")."
          | Inconclusive =>
              "first sequence is less than the second("
              ++ str_int 500 ++ " vs " ++ str_int 620 ++ ")."
          | Mismatch =>
              "first sequence is greater than the second("
              ++ str_int 500 ++ " vs " ++ str_int 620 ++ ")."
          end.
Proof.
  apply (diff_sequence_ordering module_globals "orders_id_seq"
           (world_sequences 620) 500 620); reflexivity.
Defined.

(** On a connection that fails with [OperationalError] at every statement,
    the query raises that exception at every call. *)
Lemma flaky_query_always_raises w :
  fault_at (secondsession w) = always_fault OperationalError ->
  fst (sequence_value Second "orders_id_seq" w) = Raise OperationalError.
Proof.
  intros Hw. unfold sequence_value, run_statement. simpl session.
  rewrite Hw. reflexivity.
Qed.

(** C2, on the code as written: a query whose connection fails with
    [OperationalError] at every statement is sent once; [retry] then raises
    [NameError] without sleeping, because its handler names
    [DatabaseError], which the module does not import. *)
Theorem retry_transient_raises_NameError :
  exists w',
    retry module_globals (sequence_value Second "orders_id_seq") world_flaky
    = (Raise NameError, w') /\
    executed (secondsession w') = [SequenceValue "orders_id_seq"] /\
    slept w' = [].
Proof.
  eexists. split; [|split]; reflexivity.
Qed.

(** The same query under a namespace that binds [DatabaseError]: four
    statements, sleeps of 1, 2 and 4 seconds, then [OperationalError]. *)
Lemma retry_transient_with_DatabaseError :
  exists w',
    retry globals_with_DatabaseError
          (sequence_value Second "orders_id_seq") world_flaky
    = (Raise OperationalError, w') /\
    executed (secondsession w')
    = [SequenceValue "orders_id_seq"; SequenceValue "orders_id_seq";
       SequenceValue "orders_id_seq"; SequenceValue "orders_id_seq"] /\
    slept w' = [1; 2; 4].
Proof.
  eexists. split; [|split]; reflexivity.
Qed.

(** The text that the handler of [diff_sequence] returns has no apostrophe. *)
Lemma sequence_missing_message_text :
  contains "doesn't exist in second database" sequence_missing_message = false /\
  contains "doesnt exist in second database" sequence_missing_message = true.
Proof. split; reflexivity. Qed.

(** With the sequence at 500 on the first database and absent from the
    second, [diff_sequence] returns no [Mismatch] verdict. *)
Lemma diff_sequence_missing_on_target_counterexample :
  ~ (exists msg w',
       diff_sequence module_globals "orders_id_seq" world_missing_sequence
       = (Ret (Mismatch, msg), w') /\
       contains "doesn't exist in second database" msg = true /\
       txn (firstsession w') = Idle /\ txn (secondsession w') = Idle).
Proof.
  intros (msg & w' & Hrun & _).
  vm_compute in Hrun. discriminate Hrun.
Qed.

(** C9, on the code as written: with the sequence at 500 on the first
    database and absent from the second, the lookup on the second database is
    refused with a programming error, [retry] turns it into [NameError] after
    that single statement, and [NameError] comes out of [diff_sequence]: the
    [except ProgrammingError] clause is not entered, no verdict is returned
    and no rollback happens, both transactions stay open. *)
Theorem diff_sequence_missing_on_target_actual :
  fst (sequence_value Second "orders_id_seq" world_missing_sequence)
  = Raise ProgrammingError /\
  exists w',
    diff_sequence module_globals "orders_id_seq" world_missing_sequence
    = (Raise NameError, w') /\
    txn (firstsession w') = Active /\
    txn (secondsession w') = Active /\
    executed (firstsession w') = [SequenceValue "orders_id_seq"] /\
    executed (secondsession w') = [SequenceValue "orders_id_seq"] /\
    slept w' = [].
Proof.
  split; [reflexivity|].
  eexists. repeat split; reflexivity.
Qed.

(** The [except ProgrammingError] clause of [diff_sequence], in a namespace
    in which [retry] lets a programming error through (the module as written
    is not one): whenever such an error comes out of the two retried lookups,
    [diff_sequence] rolls back both sessions and returns [Mismatch] with the
    text "sequence doesnt exist in second database."; both transactions are
    closed afterwards and the error is not propagated. *)
Theorem diff_sequence_catalog_error_rolls_back G seq w e w1 :
  load_global G "ProgrammingError" = Some ProgrammingError ->
  fetch_sequence_values G seq w = (Raise e, w1) ->
  isinstance e ProgrammingError = true ->
  exists w2,
    diff_sequence G seq w
    = (Ret (Mismatch, "sequence doesnt exist in second database."), w2) /\
    txn (firstsession w2) = Idle /\
    txn (secondsession w2) = Idle /\
    db (firstsession w2) = db (firstsession w1) /\
    db (secondsession w2) = db (secondsession w1).
Proof.
  intros HG Hfetch He. unfold diff_sequence.
  eexists.
  erewrite bind_ret_eq.
  2:{ erewrite try_except_caught; [| |exact HG|exact He].
      2:{ apply bind_raise_eq. exact Hfetch. }
      reflexivity. }
  repeat split; reflexivity.
Qed.

Lemma diff_sequence_catalog_error_rolls_back_witness :
  exists w2,
    diff_sequence globals_with_DatabaseError "orders_id_seq"
                  world_missing_sequence
    = (Ret (Mismatch, "sequence doesnt exist in second database."), w2) /\
    txn (firstsession w2) = Idle /\
    txn (secondsession w2) = Idle /\
    db (firstsession w2) = seq_db (Some 500) /\
    db (secondsession w2) = seq_db None.
Proof.
  destruct (diff_sequence_catalog_error_rolls_back
              globals_with_DatabaseError "orders_id_seq"
              world_missing_sequence ProgrammingError
              (snd (fetch_sequence_values globals_with_DatabaseError
                      "orders_id_seq" world_missing_sequence))
              eq_refl eq_refl eq_refl)
    as (w2 & Hrun & H1 & H2 & H3 & H4).
  exists w2. repeat split; assumption.
Defined.

(* ================================================================= *)
(** ** Orchestration *)

Lemma exit_status_counts (vs : list Verdict) :
  exit_status (Z.of_nat (length (filter is_False vs)))
  = if existsb is_False vs then 1 else 0.
Proof.
  unfold exit_status.
  induction vs as [|v vs IH]; [reflexivity|].
  cbn [filter existsb]. destruct (is_False v); cbn [orb].
  - cbn [length]. destruct (0 <? Z.of_nat (S (length (filter is_False vs)))) eqn:E;
      [reflexivity|]. apply Z.ltb_ge in E. lia.
  - exact IH.
Qed.

(** The loop adds to [failures] the number of [False] verdicts. *)
Lemma analyse_all_counts kind diff :
  forall entities w vs w', Verdicts diff entities w vs w' ->
  forall failures,
    analyse_all kind diff entities failures w
    = (Ret (failures + Z.of_nat (length (filter is_False vs))), w').
Proof.
  induction 1 as [w|entity rest w v msg w1 vs w2 Htty Hdiff _ IH]; intros failures.
  - cbn. unfold ret. f_equal. f_equal. lia.
  - cbn [analyse_all]. unfold bind at 1. unfold StatusUpdate_init at 1.
    rewrite Htty.
    erewrite bind_ret_eq by exact Hdiff.
    cbv beta iota. unfold bind at 1. unfold StatusUpdate_complete at 1.
    cbn [spinner ret].
    rewrite IH. cbn [filter]. destruct (is_False v); cbn [length].
    + f_equal. f_equal. lia.
    + reflexivity.
Qed.

(** Off a terminal, [StatusUpdate.complete] raises on the first entity:
    [__init__] has not set [self.spinner]. *)
Lemma analyse_all_without_terminal kind diff entity rest failures w v msg w1 :
  stdout_isatty w = false ->
  diff entity w = (Ret (v, msg), w1) ->
  analyse_all kind diff (entity :: rest) failures w = (Raise AttributeError, w1).
Proof.
  intros Htty Hdiff. cbn [analyse_all]. unfold bind at 1.
  unfold StatusUpdate_init at 1. rewrite Htty.
  erewrite bind_ret_eq by exact Hdiff. reflexivity.
Qed.

Lemma no_False_verdict (vs : list Verdict) :
  (forall v, In v vs -> v = Match \/ v = Inconclusive) ->
  existsb is_False vs = false.
Proof.
  induction vs as [|v vs IH]; intros Hall; [reflexivity|].
  cbn [existsb]. rewrite IH by (intros; apply Hall; right; assumption).
  destruct (Hall v (or_introl eq_refl)) as [-> | ->]; reflexivity.
Qed.

Lemma some_False_verdict (vs : list Verdict) :
  In Mismatch vs -> existsb is_False vs = true.
Proof.
  intros Hin. apply existsb_exists. exists Mismatch. split; [assumption|reflexivity].
Qed.

(** The failure counter, on a terminal: in a run in which the listing (and
    the installation of the aggregate) succeed and every entity produces a
    verdict under a [StatusUpdate] created on a terminal,
    [diff_all_sequences] and [diff_all_table_data] return 1 when some verdict
    is [Mismatch] ([False]) and 0 otherwise; [Match] and [Inconclusive] are
    not counted, so a run made of them only returns 0. *)
Theorem exit_code_reports_mismatches G md5 fuel
    ws names ws1 svs ws2 wt wt1 tvs wt2 :
  get_all_sequences ws = (Ret names, ws1) ->
  Verdicts (diff_sequence G) (sorted names) ws1 svs ws2 ->
  create_aggregate_functions wt = (Ret tt, wt1) ->
  Verdicts (diff_table_data G md5 fuel)
           (sorted (map fst (tables (db (firstsession wt1))))) wt1 tvs wt2 ->
  diff_all_sequences G ws = (Ret (if existsb is_False svs then 1 else 0), ws2) /\
  diff_all_table_data G md5 fuel wt
  = (Ret (if existsb is_False tvs then 1 else 0), wt2) /\
  (In Mismatch svs -> fst (diff_all_sequences G ws) = Ret 1) /\
  (In Mismatch tvs -> fst (diff_all_table_data G md5 fuel wt) = Ret 1) /\
  ((forall v, In v svs -> v = Match \/ v = Inconclusive) ->
   fst (diff_all_sequences G ws) = Ret 0) /\
  ((forall v, In v tvs -> v = Match \/ v = Inconclusive) ->
   fst (diff_all_table_data G md5 fuel wt) = Ret 0).
Proof.
  intros Hnames Hseqs Hinstall Htables.
  assert (Hs : diff_all_sequences G ws
               = (Ret (if existsb is_False svs then 1 else 0), ws2)).
  { unfold diff_all_sequences.
    erewrite bind_ret_eq by exact Hnames.
    erewrite bind_ret_eq by (apply analyse_all_counts; exact Hseqs).
    unfold ret. rewrite Z.add_0_l, exit_status_counts. reflexivity. }
  assert (Ht : diff_all_table_data G md5 fuel wt
               = (Ret (if existsb is_False tvs then 1 else 0), wt2)).
  { unfold diff_all_table_data.
    erewrite bind_ret_eq by exact Hinstall.
    erewrite bind_ret_eq by reflexivity.
    erewrite bind_ret_eq by (apply analyse_all_counts; exact Htables).
    unfold ret. rewrite Z.add_0_l, exit_status_counts. reflexivity. }
  rewrite Hs, Ht. cbn [fst].
  repeat split; intros H.
  - rewrite some_False_verdict by assumption. reflexivity.
  - rewrite some_False_verdict by assumption. reflexivity.
  - rewrite no_False_verdict by assumption. reflexivity.
  - rewrite no_False_verdict by assumption. reflexivity.
Qed.

Lemma exit_code_reports_mismatches_witness :
  fst (diff_all_sequences module_globals world_run) = Ret 1 /\
  fst (diff_all_table_data module_globals plain_md5 0 world_run) = Ret 0.
Proof.
  destruct (exit_code_reports_mismatches module_globals plain_md5 0
              world_run ["c_seq"; "a_seq"; "b_seq"]
              (snd (get_all_sequences world_run))
              [Match; Inconclusive; Mismatch]
              (snd (diff_all_sequences module_globals world_run))
              world_run
              (snd (create_aggregate_functions world_run))
              [Inconclusive; Match]
              (snd (diff_all_table_data module_globals plain_md5 0 world_run)))
    as (_ & _ & Hs & _ & _ & Ht).
  - reflexivity.
  - set (l := sorted _). vm_compute in l. subst l.
    repeat (eapply Verdicts_cons; [reflexivity | vm_compute; reflexivity |]).
    apply Verdicts_nil.
  - reflexivity.
  - set (l := sorted _). vm_compute in l. subst l.
    repeat (eapply Verdicts_cons; [reflexivity | vm_compute; reflexivity |]).
    apply Verdicts_nil.
  - split.
    + apply Hs. right. right. left. reflexivity.
    + apply Ht. intros v [<- | [<- | []]]; [right | left]; reflexivity.
Defined.

(** C4, on the code as written: off a terminal, a run with a mismatching
    entity returns no exit code. Each diff returns [Mismatch], then
    [StatusUpdate.complete] reads [self.spinner], which [__init__] sets only
    on a terminal, and [AttributeError] comes out of [diff_all_sequences] and
    of [diff_all_table_data]. The same run on a terminal returns 1. *)
Theorem mismatching_run_off_terminal_raises :
  (exists m w1,
     diff_sequence module_globals "orders_id_seq" (world_mismatch false)
     = (Ret (Mismatch, m), w1)) /\
  (exists m w1,
     diff_table_data module_globals plain_md5 0 "orders" (world_mismatch false)
     = (Ret (Mismatch, m), w1)) /\
  (exists w',
     diff_all_sequences module_globals (world_mismatch false)
     = (Raise AttributeError, w')) /\
  (exists w',
     diff_all_table_data module_globals plain_md5 0 (world_mismatch false)
     = (Raise AttributeError, w')) /\
  (exists w',
     diff_all_sequences module_globals (world_mismatch true) = (Ret 1, w')) /\
  (exists w',
     diff_all_table_data module_globals plain_md5 0 (world_mismatch true)
     = (Ret 1, w')).
Proof.
  repeat split; do 2 try eexists; vm_compute; reflexivity.
Qed.

(* ================================================================= *)
(** ** create_aggregate_functions *)

Lemma install_last_refused (d : Database) :
  has_routine d "public.last" = true ->
  install_last_query d = inl ProgrammingError.
Proof.
  intros Hlast. unfold install_last_query, create_aggregate.
  assert (H : has_routine (create_or_replace_function "public.last_agg" d)
                          "public.last" = true).
  { unfold create_or_replace_function.
    destruct (has_routine d "public.last_agg"); [exact Hlast|].
    unfold has_routine in *. cbn [routines].
    rewrite existsb_app, Hlast. reflexivity. }
  rewrite H. reflexivity.
Qed.

Lemma install_last_installs (d : Database) :
  has_routine d "public.last" = false ->
  exists d', install_last_query d = inr (tt, d') /\
             has_routine d' "public.last" = true.
Proof.
  intros Hlast. unfold install_last_query, create_aggregate.
  assert (H : has_routine (create_or_replace_function "public.last_agg" d)
                          "public.last" = false).
  { unfold create_or_replace_function.
    destruct (has_routine d "public.last_agg"); [exact Hlast|].
    unfold has_routine in *. cbn [routines].
    rewrite existsb_app, Hlast. reflexivity. }
  rewrite H. eexists. split; [reflexivity|].
  unfold has_routine. cbn [routines]. rewrite existsb_app. cbn.
  apply orb_true_r.
Qed.

(** Once the aggregate is in the catalog of the first database,
    [create_aggregate_functions] raises: on a connection that works, the
    server refuses [CREATE AGGREGATE] with a programming error. *)
Lemma create_aggregate_functions_refused (w : World) :
  has_routine (db (firstsession w)) "public.last" = true ->
  exists e w',
    create_aggregate_functions w = (Raise e, w') /\
    (fault_at (firstsession w) (length (executed (firstsession w))) = None ->
     e = ProgrammingError).
Proof.
  intros Hlast. unfold create_aggregate_functions, bind, run_statement.
  cbn [session].
  destruct (fault_at (firstsession w) (length (executed (firstsession w))))
    as [e|] eqn:Hfault.
  - exists e. eexists. split; [reflexivity|discriminate].
  - rewrite (install_last_refused _ Hlast).
    exists ProgrammingError. eexists. split; reflexivity.
Qed.

(** C10, on the code as written: the first call of
    [create_aggregate_functions] installs the aggregate on both databases and
    commits; a second call on the resulting databases raises
    [ProgrammingError], and so does [diff_all_table_data], before it looks at
    any table. *)
Theorem create_aggregate_functions_second_run_raises :
  exists w1 w2,
    create_aggregate_functions world_uninstalled = (Ret tt, w1) /\
    has_routine (db (firstsession w1)) "public.last" = true /\
    has_routine (db (secondsession w1)) "public.last" = true /\
    txn (firstsession w1) = Idle /\
    txn (secondsession w1) = Idle /\
    create_aggregate_functions w1 = (Raise ProgrammingError, w2) /\
    (forall md5 fuel,
       diff_all_table_data module_globals md5 fuel w1
       = (Raise ProgrammingError, w2)) /\
    executed (firstsession w2) = [InstallLast; InstallLast] /\
    executed (secondsession w2) = [InstallLast].
Proof.
  exists (snd (create_aggregate_functions world_uninstalled)).
  eexists.
  split; [reflexivity|].
  split; [reflexivity|].
  split; [reflexivity|].
  split; [reflexivity|].
  split; [reflexivity|].
  split; [reflexivity|].
  split; [|split; reflexivity].
  intros md5 fuel. unfold diff_all_table_data.
  apply bind_raise_eq. reflexivity.
Qed.

(* ================================================================= *)
(** ** Dictionaries and the cursor *)

Lemma dict_get_set_same k v d : dict_get (dict_set k v d) k = Some v.
Proof.
  induction d as [|[k' v'] d IH]; cbn.
  - rewrite String.eqb_refl. reflexivity.
  - destruct (String.eqb k' k) eqn:E; cbn; rewrite E; [reflexivity|exact IH].
Qed.

Lemma dict_get_set_other k k' v d :
  k <> k' -> dict_get (dict_set k v d) k' = dict_get d k'.
Proof.
  intros Hne. induction d as [|[k0 v0] d IH]; cbn.
  - apply String.eqb_neq in Hne. rewrite Hne. reflexivity.
  - destruct (String.eqb k0 k) eqn:E; cbn.
    + apply String.eqb_eq in E. subst k0.
      apply String.eqb_neq in Hne. rewrite Hne. reflexivity.
    + destruct (String.eqb k0 k'); [reflexivity|exact IH].
Qed.

Lemma cursor_bound_set k v d pk :
  cursor_bound d pk -> cursor_bound (dict_set k (py_of_cell v) d) pk.
Proof.
  intros [u Hu]. unfold cursor_bound.
  destruct (String.eqb k pk) eqn:E.
  - apply String.eqb_eq in E. subst pk. exists v. apply dict_get_set_same.
  - apply String.eqb_neq in E. exists u. rewrite dict_get_set_other; assumption.
Qed.

Lemma cursor_bound_has_offset b d pk :
  pk <> "has_offset" ->
  cursor_bound d pk -> cursor_bound (dict_set "has_offset" (PyBool b) d) pk.
Proof.
  intros Hne [u Hu]. exists u.
  rewrite dict_get_set_other; [assumption|congruence].
Qed.

Lemma initial_offsets_bound pks :
  forall pk, In pk pks -> cursor_bound (initial_offsets pks) pk.
Proof.
  unfold initial_offsets.
  assert (H : forall l d pk,
             In pk l \/ cursor_bound d pk ->
             cursor_bound (fold_left (fun d pk => dict_set pk PyNone d) l d) pk).
  { induction l as [|k l IH]; intros d pk Hpk; cbn.
    - destruct Hpk as [[]|H]; exact H.
    - apply IH. destruct Hpk as [[->|Hin]|Hb].
      + right. exists None. apply dict_get_set_same.
      + left. exact Hin.
      + right. apply (cursor_bound_set k None). exact Hb. }
  intros pk Hin. apply H. left. exact Hin.
Qed.

Lemma bind_ints_bound offsets pks :
  (forall pk, In pk pks -> cursor_bound offsets pk) ->
  exists bounds, bind_ints offsets pks = inr bounds.
Proof.
  induction pks as [|pk pks IH]; intros Hb; cbn.
  - eexists. reflexivity.
  - destruct (Hb pk (or_introl eq_refl)) as [v Hv].
    destruct IH as [bounds Hbounds]; [intros; apply Hb; right; assumption|].
    unfold bind_int. rewrite Hv, Hbounds.
    destruct v; cbn; eexists; reflexivity.
Qed.

Lemma store_cursor_bound pks :
  forall idx firstpks offsets w,
    (idx + length pks <= length firstpks)%nat ->
    exists offsets',
      store_cursor pks idx firstpks offsets w = (Ret offsets', w) /\
      (forall pk, In pk pks \/ cursor_bound offsets pk ->
                  cursor_bound offsets' pk).
Proof.
  induction pks as [|pk pks IH]; intros idx firstpks offsets w Hlen; cbn.
  - exists offsets. split; [reflexivity|]. intros pk [[]|H]; exact H.
  - destruct (nth_error firstpks idx) as [v|] eqn:Hnth.
    2:{ apply nth_error_None in Hnth. cbn in Hlen. lia. }
    destruct (IH (S idx) firstpks (dict_set pk (py_of_cell v) offsets) w)
      as (offsets' & Hrun & Hb); [cbn in Hlen; lia|].
    exists offsets'. split; [exact Hrun|].
    intros k [[->|Hin]|Hk]; apply Hb.
    + right. exists v. apply dict_get_set_same.
    + left. exact Hin.
    + right. apply cursor_bound_set. exact Hk.
Qed.

Lemma hash_eqb_refl h : hash_eqb h h = true.
Proof. destruct h; cbn; [apply String.eqb_refl|reflexivity]. Qed.

Lemma cells_eqb_refl l : cells_eqb l l = true.
Proof.
  induction l as [|[z|] l IH]; cbn; [reflexivity| |exact IH].
  rewrite Z.eqb_refl. exact IH.
Qed.

(* ================================================================= *)
(** ** The paging query *)

(** On a catalog that holds the table and the aggregate, with a cursor bound
    for every key column, the paging query succeeds, and its only row is made
    of the digest and of the last keys of [page_of]. *)
Lemma page_query_result md5 d tablename t pks chunk offsets b :
  assoc tablename (tables d) = Some t ->
  has_routine d "public.last" = true ->
  forallb (has_column t) pks = true ->
  ~ In "has_offset" pks ->
  0 <= chunk ->
  (forall pk, In pk pks -> cursor_bound offsets pk) ->
  exists bounds,
    bind_ints (dict_set "has_offset" (PyBool b) offsets) pks = inr bounds /\
    page_query md5 (SQL_TEMPLATE_HASH tablename pks chunk)
               (dict_set "has_offset" (PyBool b) offsets) d
    = inr (mkPageResult 1
             (Some (page_hash md5
                      (page_of (columns t) (rows t) pks chunk (Some b) bounds),
                    map (fun pk =>
                           last (map (fun r => cell (columns t) r pk)
                                     (page_of (columns t) (rows t) pks chunk
                                              (Some b) bounds)))
                        pks)),
           d).
Proof.
  intros Ht Hlast Hcols Hno Hchunk Hbound.
  destruct (bind_ints_bound (dict_set "has_offset" (PyBool b) offsets) pks)
    as [bounds Hbounds].
  { intros pk Hin. apply cursor_bound_has_offset; [|apply Hbound; exact Hin].
    intros ->. apply Hno. exact Hin. }
  exists bounds. split; [exact Hbounds|].
  unfold page_query, page_rows, SQL_TEMPLATE_HASH.
  cbn [from_table last_of offset_cols order_by limit].
  rewrite Hlast. cbn [negb].
  unfold bind_bool. rewrite dict_get_set_same.
  rewrite Hbounds, Ht.
  rewrite !forallb_app, Hcols. cbn [andb negb].
  destruct (chunk <? 0) eqn:E; [apply Z.ltb_lt in E; lia|].
  reflexivity.
Qed.

Lemma execute_page_returns G md5 s q offsets w r :
  fault_at (session s w) (length (executed (session s w))) = None ->
  page_query md5 q offsets (db (session s w)) = inr (r, db (session s w)) ->
  retry G (execute_page md5 s q offsets) w
  = (Ret r, set_session s (mkSession (db (session s w)) Active
                             (executed (session s w) ++ [PageHash q offsets])
                             (fault_at (session s w))) w).
Proof.
  intros Hf Hq. apply retry_returns. unfold execute_page.
  apply run_statement_ok; assumption.
Qed.

Section IdenticalTables.

Variable G : Namespace.
Variable md5 : string -> string.
Variable tablename : string.
Variable pks : list string.
Variables t1 t2 : Table.
Variables d1 d2 : Database.
Variable chunk : Z.

Hypothesis first_table : assoc tablename (tables d1) = Some t1.
Hypothesis second_table : assoc tablename (tables d2) = Some t2.
Hypothesis same_columns : columns t1 = columns t2.
Hypothesis same_rows : rows t1 = rows t2.
Hypothesis first_last : has_routine d1 "public.last" = true.
Hypothesis second_last : has_routine d2 "public.last" = true.
Hypothesis key_columns : forallb (has_column t1) pks = true.
Hypothesis no_clash : ~ In "has_offset" pks.
Hypothesis chunk_nonneg : 0 <= chunk.

(** With the same rows behind both sessions, no iteration of the loop of
    [diff_table_data] returns: each one sends the paging query to both
    databases, finds the same row count, digest and keys, and goes on. *)
Lemma page_loop_never_returns :
  forall fuel position offsets w,
    db (firstsession w) = d1 ->
    db (secondsession w) = d2 ->
    chunk_size w = chunk ->
    healthy (firstsession w) ->
    healthy (secondsession w) ->
    (forall pk, In pk pks -> cursor_bound offsets pk) ->
    exists w',
      page_loop G md5 fuel tablename pks false position offsets w
      = (OutOfFuel, w') /\
      length (executed (firstsession w'))
      = (length (executed (firstsession w)) + fuel)%nat /\
      length (executed (secondsession w'))
      = (length (executed (secondsession w)) + fuel)%nat.
Proof.
  induction fuel as [|fuel IH]; intros position offsets w Hd1 Hd2 Hchunk Hh1 Hh2 Hb.
  - exists w. cbn. repeat split; lia.
  - cbn [page_loop].
    erewrite bind_ret_eq by reflexivity. cbv beta zeta.
    rewrite Hchunk.
    destruct (page_query_result md5 d1 tablename t1 pks chunk offsets
                (0 <? position) first_table first_last key_columns no_clash
                chunk_nonneg Hb) as (bounds & Hbounds & Hq1).
    assert (key_columns2 : forallb (has_column t2) pks = true).
    { unfold has_column in *. rewrite <- same_columns. exact key_columns. }
    destruct (page_query_result md5 d2 tablename t2 pks chunk offsets
                (0 <? position) second_table second_last key_columns2 no_clash
                chunk_nonneg Hb) as (bounds2 & Hbounds2 & Hq2).
    rewrite Hbounds in Hbounds2. injection Hbounds2 as <-.
    rewrite <- same_columns, <- same_rows in Hq2.
    erewrite bind_ret_eq.
    2:{ apply execute_page_returns; cbn [session].
        - apply Hh1.
        - rewrite Hd1. exact Hq1. }
    erewrite bind_ret_eq.
    2:{ apply execute_page_returns; cbn [session set_session secondsession].
        - apply Hh2.
        - rewrite Hd2. exact Hq2. }
    cbn [rowcount fetchone]. rewrite Z.eqb_refl. cbn [negb].
    unfold unpack_row at 1. cbn [fetchone].
    erewrite bind_ret_eq by reflexivity.
    unfold unpack_row at 1. cbn [fetchone].
    erewrite bind_ret_eq by reflexivity.
    cbv beta iota.
    rewrite hash_eqb_refl, cells_eqb_refl. cbn [negb].
    erewrite bind_ret_eq by reflexivity.
    set (w2 := set_session Second _ _).
    set (offsets1 := dict_set "has_offset" _ offsets).
    set (firstpks := map _ pks).
    destruct (store_cursor_bound pks 0 firstpks offsets1 w2)
      as (offsets' & Hstore & Hb').
    { subst firstpks. rewrite length_map. lia. }
    erewrite bind_ret_eq by exact Hstore.
    destruct (IH (position + chunk_size w2) offsets' w2)
      as (w' & Hrun & Hlen1 & Hlen2).
    + subst w2. cbn. exact Hd1.
    + subst w2. cbn. exact Hd2.
    + subst w2. cbn. exact Hchunk.
    + subst w2. intros n. cbn. apply Hh1.
    + subst w2. intros n. cbn. apply Hh2.
    + intros pk Hin. apply Hb'. left. exact Hin.
    + exists w'. split; [exact Hrun|].
      rewrite Hlen1, Hlen2. subst w2. cbn. rewrite !length_app. cbn. lia.
Qed.

End IdenticalTables.

(** The loop of [diff_table_data] has no way out with [True]: [done] stays
    [False], so whatever the databases hold, a verdict that comes out of the
    loop is [Mismatch]. *)
Lemma page_loop_returns_only_Mismatch G md5 tablename pks :
  forall fuel position offsets w v msg w',
    page_loop G md5 fuel tablename pks false position offsets w
    = (Ret (v, msg), w') ->
    v = Mismatch.
Proof.
  induction fuel as [|fuel IH]; intros position offsets w v msg w' Hrun.
  - discriminate Hrun.
  - cbn [page_loop] in Hrun. unfold bind in Hrun.
    repeat match type of Hrun with
           | context [match ?x with _ => _ end] =>
               match x with
               | page_loop _ _ _ _ _ _ _ _ _ => fail 1
               | _ => destruct x eqn:?; try discriminate Hrun
               end
           end;
      try (injection Hrun as <- _ _; reflexivity);
      try (eapply IH; exact Hrun).
Qed.

(* ================================================================= *)
(** ** diff_table_data *)

(** In the default mode the [try] block does nothing, and the method goes to
    the primary key of the table on the first database. *)
Lemma diff_table_data_hash_mode G md5 fuel tablename w t :
  count_only w = false ->
  assoc tablename (tables (db (firstsession w))) = Some t ->
  diff_table_data G md5 fuel tablename w
  = match pk_columns t with
    | [] => (Ret (Inconclusive, no_primary_key_message), w)
    | pks => page_loop G md5 fuel tablename pks false 0 (initial_offsets pks) w
    end.
Proof.
  intros Hmode Ht. unfold diff_table_data.
  erewrite bind_ret_eq.
  2:{ apply try_except_ret. unfold bind, get_count_only. rewrite Hmode.
      reflexivity. }
  cbv beta iota.
  erewrite bind_ret_eq.
  2:{ unfold get_pk_constraint. erewrite bind_ret_eq.
      - reflexivity.
      - unfold reflect_table. cbn [session]. rewrite Ht. reflexivity. }
  destruct (pk_columns t); reflexivity.
Qed.

(** In count-only mode the method ends inside the [try] block: the world it
    leaves is the one that the counting leaves. *)
Lemma diff_table_data_count_only G md5 fuel tablename w :
  count_only w = true ->
  forall r w', diff_table_data G md5 fuel tablename w = (r, w') ->
               exists r0, count_only_diff tablename w = (r0, w').
Proof.
  intros Hmode r w'. unfold diff_table_data, try_except.
  unfold bind at 1. unfold bind at 1. unfold get_count_only at 1.
  rewrite Hmode. unfold bind at 1.
  destruct (count_only_diff tablename w) as [[a|e|] w1]; cbn [ret].
  - intros H. injection H as _ <-. eexists. reflexivity.
  - unfold load_class, bind.
    destruct (load_global G "NoSuchTableError") as [c|]; cbn [ret raise].
    + destruct (isinstance e c); cbn [ret raise];
        intros H; injection H as _ <-; eexists; reflexivity.
    + intros H; injection H as _ <-; eexists; reflexivity.
  - intros H. injection H as _ <-. eexists. reflexivity.
Qed.

(** Two databases that hold the same rows under
    the same columns, a non-empty primary key, the aggregate installed,
    connections that never fail. Whatever the number of iterations,
    [diff_table_data] is still in its loop, and has sent one paging query per
    iteration to each database. *)
Lemma diff_table_data_identical_diverges G md5 tablename w t1 t2 :
  count_only w = false ->
  assoc tablename (tables (db (firstsession w))) = Some t1 ->
  assoc tablename (tables (db (secondsession w))) = Some t2 ->
  columns t1 = columns t2 ->
  rows t1 = rows t2 ->
  pk_columns t1 <> [] ->
  has_routine (db (firstsession w)) "public.last" = true ->
  has_routine (db (secondsession w)) "public.last" = true ->
  forallb (has_column t1) (pk_columns t1) = true ->
  ~ In "has_offset" (pk_columns t1) ->
  0 <= chunk_size w ->
  healthy (firstsession w) ->
  healthy (secondsession w) ->
  forall fuel, exists w',
    diff_table_data G md5 fuel tablename w = (OutOfFuel, w') /\
    length (executed (firstsession w'))
    = (length (executed (firstsession w)) + fuel)%nat /\
    length (executed (secondsession w'))
    = (length (executed (secondsession w)) + fuel)%nat.
Proof.
  intros Hmode Ht1 Ht2 Hcols Hrows Hpk Hl1 Hl2 Hkeys Hclash Hchunk Hh1 Hh2 fuel.
  rewrite (diff_table_data_hash_mode G md5 fuel tablename w t1 Hmode Ht1).
  destruct (pk_columns t1) as [|pk pks] eqn:Epk; [contradiction|].
  apply (page_loop_never_returns G md5 tablename (pk :: pks) t1 t2
           (db (firstsession w)) (db (secondsession w)) (chunk_size w));
    try assumption; try reflexivity.
  apply initial_offsets_bound.
Qed.

(** In the default mode, [diff_table_data] never returns [True]. *)
Lemma diff_table_data_hash_mode_never_Match G md5 fuel tablename w v msg w' :
  count_only w = false ->
  diff_table_data G md5 fuel tablename w = (Ret (v, msg), w') ->
  v <> Match.
Proof.
  intros Hmode. unfold diff_table_data.
  erewrite bind_ret_eq.
  2:{ apply try_except_ret. unfold bind, get_count_only. rewrite Hmode.
      reflexivity. }
  cbv beta iota. unfold bind.
  destruct (get_pk_constraint First tablename w) as [[pks|e|] w1];
    try discriminate.
  destruct pks as [|pk pks].
  - intros H. injection H as <- _ _. discriminate.
  - intros H. apply page_loop_returns_only_Mismatch in H. subst v. discriminate.
Qed.

Lemma orders_world_diverges md5 ids (chunk : positive) fuel :
  exists w',
    diff_table_data module_globals md5 fuel "orders"
                    (world_orders ids (Z.pos chunk) false)
    = (OutOfFuel, w') /\
    length (executed (firstsession w')) = fuel /\
    length (executed (secondsession w')) = fuel.
Proof.
  apply (diff_table_data_identical_diverges module_globals md5 "orders"
           (world_orders ids (Z.pos chunk) false) (orders ids) (orders ids));
    try reflexivity; try discriminate.
  - cbn. intros [H|[]]. discriminate H.
  - intros n. reflexivity.
  - intros n. reflexivity.
Qed.

(** C1, on the code as written: with the same rows of [orders] on both
    databases, any positive chunk size and any number of rows,
    [diff_table_data] never leaves its loop in the default mode. After any
    number [fuel] of paging rounds it has returned nothing, and has sent [fuel]
    paging queries to each database. *)
Theorem diff_table_data_identical_never_terminates :
  forall md5 ids (chunk : positive) fuel,
  exists w',
    diff_table_data module_globals md5 fuel "orders"
                    (world_orders ids (Z.pos chunk) false)
    = (OutOfFuel, w') /\
    length (executed (firstsession w')) = fuel /\
    length (executed (secondsession w')) = fuel.
Proof.
  intros md5 ids chunk fuel. apply orders_world_diverges.
Qed.

(** So no verdict is ever returned there, and in particular not [Match]. *)
Lemma identical_orders_no_verdict md5 ids (chunk : positive) r :
  ~ table_diff_returns module_globals md5 "orders"
      (world_orders ids (Z.pos chunk) false) r.
Proof.
  intros (fuel & w' & Hrun).
  destruct (orders_world_diverges md5 ids chunk fuel) as (w'' & Hdiv & _).
  rewrite Hdiv in Hrun. discriminate Hrun.
Qed.

(** The paging rounds on three rows with chunk size 2: the cursor goes to 2,
    then to 3, and stays there. *)
Lemma orders_paging_rounds :
  let q := SQL_TEMPLATE_HASH "orders" ["id"] 2 in
  executed (firstsession
              (snd (diff_table_data module_globals plain_md5 5 "orders"
                      (world_orders [1; 2; 3] 2 false))))
  = [ PageHash q [("id", PyNone); ("has_offset", PyBool false)];
      PageHash q [("id", PyInt 2); ("has_offset", PyBool true)];
      PageHash q [("id", PyInt 3); ("has_offset", PyBool true)];
      PageHash q [("id", PyInt 3); ("has_offset", PyBool true)];
      PageHash q [("id", PyInt 3); ("has_offset", PyBool true)] ].
Proof. vm_compute. reflexivity. Qed.

(* ================================================================= *)
(** ** Traces *)

Lemma sent_only_refl P w : sent_only P w w.
Proof.
  exists [], []. rewrite !app_nil_r. repeat split; reflexivity.
Qed.

Lemma sent_only_trans P w1 w2 w3 :
  sent_only P w1 w2 -> sent_only P w2 w3 -> sent_only P w1 w3.
Proof.
  intros (a1 & a2 & Ha1 & Ha2 & Pa1 & Pa2) (b1 & b2 & Hb1 & Hb2 & Pb1 & Pb2).
  exists (a1 ++ b1)%list, (a2 ++ b2)%list.
  rewrite Hb1, Hb2, Ha1, Ha2, !app_assoc, !forallb_app, Pa1, Pa2, Pb1, Pb2.
  repeat split; reflexivity.
Qed.

Lemma sends_only_ret P {A : Type} (a : A) : sends_only P (ret a).
Proof. intros w r w' H. injection H as _ <-. apply sent_only_refl. Qed.

Lemma sends_only_bind P {A B : Type} (m : M A) (k : A -> M B) :
  sends_only P m -> (forall a, sends_only P (k a)) -> sends_only P (bind m k).
Proof.
  intros Hm Hk w r w'. unfold bind.
  destruct (m w) as [[a|e|] w1] eqn:Em; intros H.
  - eapply sent_only_trans; [eapply Hm; exact Em|eapply Hk; exact H].
  - injection H as _ <-. eapply Hm; exact Em.
  - injection H as _ <-. eapply Hm; exact Em.
Qed.

Lemma sends_only_run_statement P {A : Type} s stmt
    (sem : Database -> ExcClass + (A * Database)) :
  P stmt = true -> sends_only P (run_statement s stmt sem).
Proof.
  intros HP w r w'. unfold run_statement.
  assert (Hsent : forall d,
             sent_only P w
               (set_session s (mkSession d Active
                                 (executed (session s w) ++ [stmt])
                                 (fault_at (session s w))) w)).
  { intros d. destruct s; cbn.
    - exists [stmt], []. cbn. rewrite HP, app_nil_r. repeat split; reflexivity.
    - exists [], [stmt]. cbn. rewrite HP, app_nil_r. repeat split; reflexivity. }
  destruct (fault_at (session s w) (length (executed (session s w)))).
  - intros H. injection H as _ <-. apply Hsent.
  - destruct (sem (db (session s w))) as [e|[a d']];
      intros H; injection H as _ <-; apply Hsent.
Qed.

Lemma sends_only_reflect_table P s tablename :
  sends_only P (reflect_table s tablename).
Proof.
  intros w r w'. unfold reflect_table.
  destruct (assoc tablename (tables (db (session s w))));
    intros H; injection H as _ <-; apply sent_only_refl.
Qed.

(** The counting of count-only mode sends [count] queries only. *)
Lemma count_only_diff_sends_counts tablename :
  sends_only not_paging (count_only_diff tablename).
Proof.
  unfold count_only_diff.
  apply sends_only_bind; [apply sends_only_reflect_table|intros _].
  apply sends_only_bind; [apply sends_only_reflect_table|intros _].
  apply sends_only_bind;
    [apply sends_only_run_statement; reflexivity|intros c1].
  apply sends_only_bind;
    [apply sends_only_run_statement; reflexivity|intros c2].
  destruct (negb (c1 =? c2)).
  - apply sends_only_bind;
      [apply sends_only_run_statement; reflexivity|intros c3].
    apply sends_only_ret.
  - destruct (c1 =? 0); apply sends_only_ret.
Qed.

Lemma count_query_rows tablename d t :
  assoc tablename (tables d) = Some t ->
  count_query tablename d = inr (Z.of_nat (length (rows t)), d).
Proof. intros Ht. unfold count_query. rewrite Ht. reflexivity. Qed.

(* ================================================================= *)
(** ** Policies of diff_table_data *)

(** C8, as stated, fails in count-only mode: a table without primary key
    that has one row on each side gets [Match], not [Inconclusive]. *)
Lemma no_primary_key_count_only_counterexample :
  ~ (exists msg,
       table_diff_returns module_globals plain_md5 "events"
                          (world_events [1] true) (Inconclusive, msg)).
Proof.
  intros (msg & fuel & w' & Hrun).
  vm_compute in Hrun. discriminate Hrun.
Qed.

Lemma no_primary_key_count_only_actual fuel :
  fst (diff_table_data module_globals plain_md5 fuel "events"
                       (world_events [1] true))
  = Ret (Match, "Counts are the same").
Proof. reflexivity. Qed.

(** C8, amended: for a table whose primary key has no column,
    [diff_table_data] returns [Inconclusive] with the no-primary-key text in
    the default mode, without sending any statement; and in every mode,
    whatever the outcome, it sends no paging query. *)
Theorem no_primary_key_never_pages G md5 fuel tablename w t :
  assoc tablename (tables (db (firstsession w))) = Some t ->
  pk_columns t = [] ->
  (count_only w = false ->
   diff_table_data G md5 fuel tablename w
   = (Ret (Inconclusive,
           "no primary key(s) on this table. Comparison is not possible."), w))
  /\
  (forall r w', diff_table_data G md5 fuel tablename w = (r, w') ->
                sent_only not_paging w w').
Proof.
  intros Ht Hpk.
  assert (Hhash : count_only w = false ->
                  diff_table_data G md5 fuel tablename w
                  = (Ret (Inconclusive, no_primary_key_message), w)).
  { intros Hmode.
    rewrite (diff_table_data_hash_mode G md5 fuel tablename w t Hmode Ht), Hpk.
    reflexivity. }
  split; [exact Hhash|].
  intros r w' Hrun.
  destruct (count_only w) eqn:Hmode.
  - destruct (diff_table_data_count_only G md5 fuel tablename w Hmode r w' Hrun)
      as [r0 Hr0].
    eapply count_only_diff_sends_counts. exact Hr0.
  - rewrite (Hhash eq_refl) in Hrun. injection Hrun as _ <-.
    apply sent_only_refl.
Qed.

Lemma no_primary_key_never_pages_witness :
  diff_table_data module_globals plain_md5 3 "events" (world_events [1] false)
  = (Ret (Inconclusive,
          "no primary key(s) on this table. Comparison is not possible."),
     world_events [1] false)
  /\
  sent_only not_paging (world_events [1] true)
    (snd (diff_table_data module_globals plain_md5 3 "events"
                          (world_events [1] true))).
Proof.
  split.
  - apply (no_primary_key_never_pages module_globals plain_md5 3 "events"
             (world_events [1] false) (events [1]));
      reflexivity.
  - eapply (proj2 (no_primary_key_never_pages module_globals plain_md5 3
                     "events" (world_events [1] true) (events [1])
                     eq_refl eq_refl)).
    apply surjective_pairing.
Defined.


(** In the default mode, a table with a primary key that is missing from the
    second database: the first paging query on the second database is
    refused, and [retry] ends with [NameError]. *)
Lemma missing_table_hash_mode_with_key :
  exists w',
    diff_table_data module_globals plain_md5 5 "orders"
                    world_orders_missing_on_target
    = (Raise NameError, w').
Proof. eexists. vm_compute. reflexivity. Qed.



(** C6, as stated, fails in the default mode: for an empty table with a
    primary key, [diff_table_data] returns no [Inconclusive] verdict. *)
Lemma empty_tables_hash_mode_counterexample :
  ~ (exists msg,
       table_diff_returns module_globals plain_md5 "orders"
                          (world_orders [] 100000 false) (Inconclusive, msg)).
Proof.
  intros (msg & fuel & w' & Hrun).
  destruct (orders_world_diverges plain_md5 [] 100000%positive fuel)
    as (w'' & Hdiv & _).
  change (Z.pos 100000) with 100000 in Hdiv.
  rewrite Hdiv in Hrun. discriminate Hrun.
Qed.

(** C6, amended: for a table that is on both databases with no row,
    [diff_table_data] returns [Inconclusive] in count-only mode (with the
    text "tables are empty", over connections that work) and, in the default
    mode, when the table has no primary-key column (with the no-primary-key
    text); the default mode has no test of emptiness. *)
Theorem empty_tables_inconclusive G md5 fuel tablename w t1 t2 :
  assoc tablename (tables (db (firstsession w))) = Some t1 ->
  assoc tablename (tables (db (secondsession w))) = Some t2 ->
  rows t1 = [] ->
  rows t2 = [] ->
  (count_only w = true ->
   fault_at (firstsession w) (length (executed (firstsession w))) = None ->
   fault_at (secondsession w) (length (executed (secondsession w))) = None ->
   exists w',
     diff_table_data G md5 fuel tablename w
     = (Ret (Inconclusive, "tables are empty"), w'))
  /\
  (count_only w = false ->
   pk_columns t1 = [] ->
   diff_table_data G md5 fuel tablename w
   = (Ret (Inconclusive,
           "no primary key(s) on this table. Comparison is not possible."), w)).
Proof.
  intros Ht1 Ht2 Hr1 Hr2. split.
  - intros Hmode Hf1 Hf2.
    assert (Hcount : exists w',
               count_only_diff tablename w
               = (Ret (Inconclusive, "tables are empty"), w')).
    { eexists. unfold count_only_diff.
      erewrite bind_ret_eq.
      2:{ unfold reflect_table. cbn [session]. rewrite Ht1. reflexivity. }
      erewrite bind_ret_eq.
      2:{ unfold reflect_table. cbn [session]. rewrite Ht2. reflexivity. }
      erewrite bind_ret_eq.
      2:{ apply run_statement_ok; [exact Hf1|].
          cbn [session]. apply count_query_rows. exact Ht1. }
      erewrite bind_ret_eq.
      2:{ apply run_statement_ok; [exact Hf2|].
          cbn [session]. apply count_query_rows. exact Ht2. }
      rewrite Hr1, Hr2. reflexivity. }
    destruct Hcount as [w' Hcount]. exists w'. unfold diff_table_data.
    erewrite bind_ret_eq.
    2:{ apply try_except_ret.
        unfold bind at 1. unfold get_count_only at 1. rewrite Hmode.
        erewrite bind_ret_eq by exact Hcount. reflexivity. }
    reflexivity.
  - intros Hmode Hpk.
    rewrite (diff_table_data_hash_mode G md5 fuel tablename w t1 Hmode Ht1), Hpk.
    reflexivity.
Qed.

Lemma empty_tables_inconclusive_witness :
  (exists w',
     diff_table_data module_globals plain_md5 3 "events" (world_events [] true)
     = (Ret (Inconclusive, "tables are empty"), w'))
  /\
  diff_table_data module_globals plain_md5 3 "events" (world_events [] false)
  = (Ret (Inconclusive,
          "no primary key(s) on this table. Comparison is not possible."),
     world_events [] false).
Proof.
  split.
  - apply (proj1 (empty_tables_inconclusive module_globals plain_md5 3 "events"
                    (world_events [] true) (events []) (events [])
                    eq_refl eq_refl eq_refl eq_refl));
      reflexivity.
  - apply (proj2 (empty_tables_inconclusive module_globals plain_md5 3 "events"
                    (world_events [] false) (events []) (events [])
                    eq_refl eq_refl eq_refl eq_refl));
      reflexivity.
Defined.

(* ================================================================= *)
(** ** The pages *)

(** A page never has more rows than the chunk size. *)
Lemma page_rows_at_most_limit d q params page :
  page_rows d q params = inr page ->
  (length page <= Z.to_nat (limit q))%nat.
Proof.
  unfold page_rows.
  destruct (bind_bool params "has_offset") as [e|has]; [discriminate|].
  destruct (bind_ints params (offset_cols q)) as [e|bounds]; [discriminate|].
  destruct (assoc (from_table q) (tables d)) as [t|]; [|discriminate].
  destruct (negb _); [discriminate|].
  destruct (limit q <? 0); [discriminate|].
  intros H. injection H as <-. apply firstn_le_length.
Qed.

(** C3, on the code as written: three rows of [orders], chunk size 2. The
    second round is sent with the cursor [id = 2] and selects the rows 2 and
    3: row 2, which is not greater than the cursor, was in the first page
    already. *)
Theorem page_query_selects_cursor_row_again :
  let q := SQL_TEMPLATE_HASH "orders" ["id"] 2 in
  let first_params := [("id", PyNone); ("has_offset", PyBool false)] in
  let second_params := [("id", PyInt 2); ("has_offset", PyBool true)] in
  executed (firstsession
              (snd (diff_table_data module_globals plain_md5 2 "orders"
                      (world_orders [1; 2; 3] 2 false))))
  = [PageHash q first_params; PageHash q second_params] /\
  page_rows (orders_db [1; 2; 3]) q first_params
  = inr [order_row 1; order_row 2] /\
  page_rows (orders_db [1; 2; 3]) q second_params
  = inr [order_row 2; order_row 3].
Proof. vm_compute. repeat split; reflexivity. Qed.

(** With chunk size 1 the cursor never moves: every round after the first
    selects row 1 again. *)
Lemma page_query_chunk_of_one :
  let q := SQL_TEMPLATE_HASH "orders" ["id"] 1 in
  executed (firstsession
              (snd (diff_table_data module_globals plain_md5 3 "orders"
                      (world_orders [1; 2; 3] 1 false))))
  = [PageHash q [("id", PyNone); ("has_offset", PyBool false)];
     PageHash q [("id", PyInt 1); ("has_offset", PyBool true)];
     PageHash q [("id", PyInt 1); ("has_offset", PyBool true)]] /\
  page_rows (orders_db [1; 2; 3]) q [("id", PyInt 1); ("has_offset", PyBool true)]
  = inr [order_row 1].
Proof. vm_compute. split; reflexivity. Qed.

(** With the composite key [(a, b)], the condition
    [a >= :a AND b >= :b] is not the order of the keys: after the page that
    ends at [(1, 5)], with chunk size 5, the row [(2, 1)] is not selected,
    although it comes after the cursor. *)
Lemma page_query_composite_key_skips_rows :
  let q := SQL_TEMPLATE_HASH "lines" ["a"; "b"] 5 in
  page_rows (lines_db [(1, 5); (2, 1)]) q
            [("a", PyInt 1); ("b", PyInt 5); ("has_offset", PyBool true)]
  = inr [[Some 1; Some 5]] /\
  key_cmp [Some 1; Some 5] [Some 2; Some 1] = Lt.
Proof. vm_compute. split; reflexivity. Qed.

(* ================================================================= *)
(** ** The diffs are read-only *)

Lemma same_data_refl w : same_data w w.
Proof. repeat split; reflexivity. Qed.

Lemma same_data_trans w1 w2 w3 :
  same_data w1 w2 -> same_data w2 w3 -> same_data w1 w3.
Proof.
  intros (a1 & a2 & a3 & a4 & a5 & a6 & a7) (b1 & b2 & b3 & b4 & b5 & b6 & b7).
  repeat split; etransitivity; eassumption.
Qed.

Lemma keeps_data_ret {A : Type} (a : A) : keeps_data (ret a).
Proof. intros w r w' H. injection H as _ <-. apply same_data_refl. Qed.

Lemma keeps_data_raise {A : Type} (e : ExcClass) : keeps_data (@raise A e).
Proof. intros w r w' H. injection H as _ <-. apply same_data_refl. Qed.

Lemma keeps_data_bind {A B : Type} (m : M A) (k : A -> M B) :
  keeps_data m -> (forall a, keeps_data (k a)) -> keeps_data (bind m k).
Proof.
  intros Hm Hk w r w'. unfold bind.
  destruct (m w) as [[a|e|] w1] eqn:Em; intros H.
  - eapply same_data_trans; [eapply Hm; exact Em|eapply Hk; exact H].
  - injection H as _ <-. eapply Hm; exact Em.
  - injection H as _ <-. eapply Hm; exact Em.
Qed.

Lemma keeps_data_load_class G name : keeps_data (load_class G name).
Proof.
  unfold load_class. destruct (load_global G name);
    [apply keeps_data_ret|apply keeps_data_raise].
Qed.

Lemma keeps_data_try_except {A : Type} G (body handler : M A) cname :
  keeps_data body -> keeps_data handler ->
  keeps_data (try_except G body cname handler).
Proof.
  intros Hb Hh w r w'. unfold try_except.
  destruct (body w) as [[a|e|] w1] eqn:Eb; intros H.
  - injection H as _ <-. eapply Hb; exact Eb.
  - eapply same_data_trans; [eapply Hb; exact Eb|].
    revert H. apply keeps_data_bind; [apply keeps_data_load_class|].
    intros c. destruct (isinstance e c); [exact Hh|apply keeps_data_raise].
  - injection H as _ <-. eapply Hb; exact Eb.
Qed.

Lemma keeps_data_sleep delay : keeps_data (sleep delay).
Proof. intros w r w' H. injection H as _ <-. repeat split; reflexivity. Qed.

Lemma keeps_data_close_txn s : keeps_data (close_txn s).
Proof.
  intros w r w' H. injection H as _ <-. destruct s; repeat split; reflexivity.
Qed.

Lemma keeps_data_run_statement {A : Type} s stmt
    (sem : Database -> ExcClass + (A * Database)) :
  read_only sem -> keeps_data (run_statement s stmt sem).
Proof.
  intros Hro w r w'. unfold run_statement.
  destruct (fault_at (session s w) (length (executed (session s w)))).
  - intros H. injection H as _ <-. destruct s; repeat split; reflexivity.
  - destruct (sem (db (session s w))) as [e|[a d']] eqn:Es;
      intros H; injection H as _ <-.
    + destruct s; repeat split; reflexivity.
    + apply Hro in Es. subst d'. destruct s; repeat split; reflexivity.
Qed.

Lemma keeps_data_reflect_table s tablename :
  keeps_data (reflect_table s tablename).
Proof.
  intros w r w'. unfold reflect_table.
  destruct (assoc tablename (tables (db (session s w))));
    intros H; injection H as _ <-; apply same_data_refl.
Qed.

Lemma keeps_data_not_transient G ex : keeps_data (not_transient G ex).
Proof.
  unfold not_transient.
  apply keeps_data_bind; [apply keeps_data_load_class|intros cdb].
  destruct (negb (isinstance ex cdb)); [|apply keeps_data_ret].
  apply keeps_data_bind; [apply keeps_data_load_class|intros cop].
  apply keeps_data_ret.
Qed.

Lemma keeps_data_retry_loop {A : Type} G (fn : M A) :
  keeps_data fn -> forall fuel i, keeps_data (retry_loop G fn fuel i).
Proof.
  intros Hfn. induction fuel as [|fuel IH]; intros i w r w'.
  - intros H. injection H as _ <-. apply same_data_refl.
  - cbn [retry_loop]. destruct (fn w) as [[a|ex|] w1] eqn:Efn; intros H.
    + injection H as _ <-. eapply Hfn; exact Efn.
    + eapply same_data_trans; [eapply Hfn; exact Efn|].
      revert H. apply keeps_data_bind; [apply keeps_data_not_transient|].
      intros giveup. destruct giveup; [apply keeps_data_raise|].
      destruct (i <? max_tries); [|apply keeps_data_raise].
      apply keeps_data_bind; [apply keeps_data_sleep|intros _; apply IH].
    + injection H as _ <-. eapply Hfn; exact Efn.
Qed.

Lemma keeps_data_retry {A : Type} G (fn : M A) :
  keeps_data fn -> keeps_data (retry G fn).
Proof. intros Hfn. apply keeps_data_retry_loop. exact Hfn. Qed.

Lemma read_only_page_query md5 q params : read_only (page_query md5 q params).
Proof.
  intros d a d'. unfold page_query.
  destruct (negb (has_routine d "public.last")); [discriminate|].
  destruct (page_rows d q params); [discriminate|].
  destruct (assoc (from_table q) (tables d)); [|discriminate].
  intros H. injection H as _ <-. reflexivity.
Qed.

Lemma read_only_count_query tablename : read_only (count_query tablename).
Proof.
  intros d a d'. unfold count_query.
  destruct (assoc tablename (tables d)); [|discriminate].
  intros H. injection H as _ <-. reflexivity.
Qed.

Lemma read_only_sequence_value_query seq :
  read_only (sequence_value_query seq).
Proof.
  intros d a d'. unfold sequence_value_query.
  destruct (assoc seq (sequences d)); [|discriminate].
  intros H. injection H as _ <-. reflexivity.
Qed.

Lemma read_only_sequence_names_query : read_only sequence_names_query.
Proof. intros d a d' H. injection H as _ <-. reflexivity. Qed.

Lemma keeps_data_store_cursor pks :
  forall idx firstpks offsets, keeps_data (store_cursor pks idx firstpks offsets).
Proof.
  induction pks as [|pk pks IH]; intros idx firstpks offsets; cbn.
  - apply keeps_data_ret.
  - destruct (nth_error firstpks idx); [apply IH|apply keeps_data_raise].
Qed.

Lemma keeps_data_page_loop G md5 tablename pks done :
  forall fuel position offsets,
    keeps_data (page_loop G md5 fuel tablename pks done position offsets).
Proof.
  induction fuel as [|fuel IH]; intros position offsets; cbn [page_loop].
  - destruct done; [apply keeps_data_ret|].
    intros w r w' H. injection H as _ <-. apply same_data_refl.
  - destruct done; [apply keeps_data_ret|].
    apply keeps_data_bind.
    { intros w r w' H. injection H as _ <-. apply same_data_refl. }
    intros chunk.
    apply keeps_data_bind.
    { apply keeps_data_retry, keeps_data_run_statement, read_only_page_query. }
    intros firstresult.
    apply keeps_data_bind.
    { apply keeps_data_retry, keeps_data_run_statement, read_only_page_query. }
    intros secondresult.
    destruct (negb (rowcount firstresult =? rowcount secondresult));
      [apply keeps_data_ret|].
    apply keeps_data_bind.
    { unfold unpack_row. destruct (fetchone firstresult);
        [apply keeps_data_ret|apply keeps_data_raise]. }
    intros [firsthash firstpks].
    apply keeps_data_bind.
    { unfold unpack_row. destruct (fetchone secondresult);
        [apply keeps_data_ret|apply keeps_data_raise]. }
    intros [secondhash secondpks].
    destruct (negb (hash_eqb firsthash secondhash)); [apply keeps_data_ret|].
    destruct (negb (cells_eqb firstpks secondpks)); [apply keeps_data_ret|].
    apply keeps_data_bind.
    { intros w r w' H. injection H as _ <-. apply same_data_refl. }
    intros chunk'.
    apply keeps_data_bind; [apply keeps_data_store_cursor|].
    intros offsets'. apply IH.
Qed.

Lemma keeps_data_count_only_diff tablename :
  keeps_data (count_only_diff tablename).
Proof.
  unfold count_only_diff.
  apply keeps_data_bind; [apply keeps_data_reflect_table|intros _].
  apply keeps_data_bind; [apply keeps_data_reflect_table|intros _].
  apply keeps_data_bind;
    [apply keeps_data_run_statement, read_only_count_query|intros c1].
  apply keeps_data_bind;
    [apply keeps_data_run_statement, read_only_count_query|intros c2].
  destruct (negb (c1 =? c2)).
  - apply keeps_data_bind;
      [apply keeps_data_run_statement, read_only_count_query|intros c3].
    apply keeps_data_ret.
  - destruct (c1 =? 0); apply keeps_data_ret.
Qed.

Lemma keeps_data_diff_table_data G md5 fuel tablename :
  keeps_data (diff_table_data G md5 fuel tablename).
Proof.
  unfold diff_table_data.
  apply keeps_data_bind.
  - apply keeps_data_try_except; [|apply keeps_data_ret].
    apply keeps_data_bind.
    { intros w r w' H. injection H as _ <-. apply same_data_refl. }
    intros only_counts. destruct only_counts; [|apply keeps_data_ret].
    apply keeps_data_bind; [apply keeps_data_count_only_diff|].
    intros r. apply keeps_data_ret.
  - intros [r|]; [apply keeps_data_ret|].
    apply keeps_data_bind.
    { unfold get_pk_constraint.
      apply keeps_data_bind; [apply keeps_data_reflect_table|].
      intros t. apply keeps_data_ret. }
    intros [|pk pks]; [apply keeps_data_ret|apply keeps_data_page_loop].
Qed.

(** [diff_table_data] is read-only: in both modes, whatever it returns or
    raises and however long it runs, the two catalogs, the connections and
    the configuration are what they were. *)
Theorem diff_table_data_keeps_data G md5 fuel tablename w r w' :
  diff_table_data G md5 fuel tablename w = (r, w') ->
  same_data w w'.
Proof. apply keeps_data_diff_table_data. Qed.

Lemma diff_table_data_keeps_data_witness :
  same_data (world_orders [1; 2; 3] 2 false)
            (snd (diff_table_data module_globals plain_md5 4 "orders"
                                  (world_orders [1; 2; 3] 2 false))).
Proof.
  apply (diff_table_data_keeps_data module_globals plain_md5 4 "orders"
           (world_orders [1; 2; 3] 2 false)
           (fst (diff_table_data module_globals plain_md5 4 "orders"
                                 (world_orders [1; 2; 3] 2 false)))).
  apply surjective_pairing.
Defined.

Lemma keeps_data_diff_sequence G seq_name : keeps_data (diff_sequence G seq_name).
Proof.
  unfold diff_sequence.
  apply keeps_data_bind.
  - apply keeps_data_try_except.
    + apply keeps_data_bind; [|intros v; apply keeps_data_ret].
      unfold fetch_sequence_values.
      apply keeps_data_bind.
      { apply keeps_data_retry, keeps_data_run_statement,
          read_only_sequence_value_query. }
      intros a.
      apply keeps_data_bind.
      { apply keeps_data_retry, keeps_data_run_statement,
          read_only_sequence_value_query. }
      intros b. apply keeps_data_ret.
    + apply keeps_data_bind; [apply keeps_data_close_txn|intros _].
      apply keeps_data_bind; [apply keeps_data_close_txn|intros _].
      apply keeps_data_ret.
  - intros [[a b]|early]; [|apply keeps_data_ret].
    destruct (a <? b); [apply keeps_data_ret|].
    destruct (b <? a); apply keeps_data_ret.
Qed.

Lemma keeps_data_analyse_all kind diff :
  (forall entity, keeps_data (diff entity)) ->
  forall entities failures, keeps_data (analyse_all kind diff entities failures).
Proof.
  intros Hdiff. induction entities as [|entity rest IH]; intros failures;
    cbn [analyse_all].
  - apply keeps_data_ret.
  - apply keeps_data_bind.
    { intros w r w' H. injection H as _ <-. apply same_data_refl. }
    intros status_update.
    apply keeps_data_bind; [apply Hdiff|].
    intros [result message].
    apply keeps_data_bind; [|intros _; apply IH].
    unfold StatusUpdate_complete.
    destruct (spinner status_update);
      [apply keeps_data_ret|apply keeps_data_raise].
Qed.

Lemma keeps_data_diff_all_sequences G : keeps_data (diff_all_sequences G).
Proof.
  unfold diff_all_sequences.
  apply keeps_data_bind.
  { apply keeps_data_run_statement, read_only_sequence_names_query. }
  intros names.
  apply keeps_data_bind; [|intros f; apply keeps_data_ret].
  apply keeps_data_analyse_all. apply keeps_data_diff_sequence.
Qed.

(** The analysis of the sequences is read-only: [diff_sequence] and
    [diff_all_sequences] leave the two catalogs, the connections and the
    configuration as they were, whatever they return or raise. *)
Theorem sequence_analysis_keeps_data G w :
  (forall seq_name r w',
     diff_sequence G seq_name w = (r, w') -> same_data w w') /\
  (forall r w', diff_all_sequences G w = (r, w') -> same_data w w').
Proof.
  split.
  - intros seq_name r w'. apply keeps_data_diff_sequence.
  - intros r w'. apply keeps_data_diff_all_sequences.
Qed.

Lemma sequence_analysis_keeps_data_witness :
  same_data world_missing_sequence
            (snd (diff_sequence globals_with_DatabaseError "orders_id_seq"
                                world_missing_sequence)) /\
  same_data world_run (snd (diff_all_sequences module_globals world_run)).
Proof.
  split.
  - apply (proj1 (sequence_analysis_keeps_data globals_with_DatabaseError
                    world_missing_sequence) "orders_id_seq"
             (fst (diff_sequence globals_with_DatabaseError "orders_id_seq"
                                 world_missing_sequence))).
    apply surjective_pairing.
  - apply (proj2 (sequence_analysis_keeps_data module_globals world_run)
             (fst (diff_all_sequences module_globals world_run))).
    apply surjective_pairing.
Defined.

(* ================================================================= *)
(** ** More on retry *)

Lemma retry_in_module {A : Type} (fn : M A) w :
  retry module_globals fn w
  = match fn w with
    | (Raise _, w1) => (Raise NameError, w1)
    | r => r
    end.
Proof.
  unfold retry. cbn [retry_loop].
  destruct (fn w) as [[a|e|] w1]; reflexivity.
Qed.

(** In the module as written [retry] never retries: it calls [fn] once, in
    the world that this single call leaves it gives back the result of [fn]
    when there is one, and it turns any exception of [fn] into [NameError]. *)
Theorem retry_module_globals_outcome {A : Type} (fn : M A) w r w' :
  retry module_globals fn w = (r, w') ->
  exists r0,
    fn w = (r0, w') /\
    match r0 with
    | Raise _ => r = Raise NameError
    | _ => r = r0
    end.
Proof.
  rewrite retry_in_module.
  destruct (fn w) as [[a|e|] w1]; intros H; injection H as <- <-;
    eexists; split; reflexivity.
Qed.

Lemma retry_module_globals_outcome_witness :
  exists r0,
    sequence_value Second "orders_id_seq" world_flaky
    = (r0, snd (retry module_globals (sequence_value Second "orders_id_seq")
                      world_flaky)) /\
    match r0 with
    | Raise _ => @Raise Z NameError = Raise NameError
    | _ => Raise NameError = r0
    end.
Proof.
  apply (retry_module_globals_outcome
           (sequence_value Second "orders_id_seq") world_flaky).
  reflexivity.
Defined.

Lemma not_transient_same_world G ex w r w' :
  not_transient G ex w = (r, w') -> w' = w.
Proof.
  unfold not_transient, load_class, bind.
  destruct (load_global G "DatabaseError") as [cdb|]; cbn [ret raise].
  - destruct (negb (isinstance ex cdb)).
    + destruct (load_global G "OperationalError"); cbn [ret raise];
        intros H; injection H as _ <-; reflexivity.
    + intros H; injection H as _ <-; reflexivity.
  - intros H; injection H as _ <-; reflexivity.
Qed.

Lemma not_transient_terminates G ex w :
  fst (not_transient G ex w) <> OutOfFuel.
Proof.
  unfold not_transient, load_class, bind.
  destruct (load_global G "DatabaseError") as [cdb|]; cbn [ret raise fst];
    [|discriminate].
  destruct (negb (isinstance ex cdb)); [|discriminate].
  destruct (load_global G "OperationalError"); cbn; discriminate.
Qed.

(** The delays of the iterations [i], [i + 1], ..., [i + k - 1]. *)
Lemma retry_loop_delays {A : Type} G (fn : M A) :
  never_sleeps fn ->
  forall fuel i w r w',
    0 <= i ->
    retry_loop G fn fuel i w = (r, w') ->
    exists k,
      (Z.of_nat k <= Z.max 0 (max_tries - i)) /\
      slept w' = (slept w
                  ++ map (fun n => 2 ^ (i + Z.of_nat n) * base_timeout)
                         (seq 0 k))%list.
Proof.
  intros Hfn. induction fuel as [|fuel IH]; intros i w r w' Hi.
  - intros H. injection H as _ <-. exists 0%nat. cbn. rewrite app_nil_r.
    split; [lia|reflexivity].
  - cbn [retry_loop]. destruct (fn w) as [[a|ex|] w1] eqn:Efn.
    + intros H. injection H as _ <-. exists 0%nat. cbn. rewrite app_nil_r.
      split; [lia|]. eapply Hfn; exact Efn.
    + unfold bind.
      destruct (not_transient G ex w1) as [[giveup| |] w2] eqn:Ent;
        apply not_transient_same_world in Ent; subst w2.
      * destruct giveup.
        -- intros H. injection H as _ <-. exists 0%nat. cbn.
           rewrite app_nil_r. split; [lia|]. eapply Hfn; exact Efn.
        -- destruct (i <? max_tries) eqn:Elt.
           ++ apply Z.ltb_lt in Elt. cbn [sleep]. intros H.
              apply IH in H; [|lia]. destruct H as (k & Hk & Hs).
              exists (S k). split; [lia|].
              rewrite Hs. cbn [slept].
              rewrite (Hfn _ _ _ Efn), <- app_assoc.
              apply (f_equal (fun l => (slept w ++ l)%list)).
              change (seq 0 (S k)) with (0%nat :: seq 1 k).
              cbn [map]. rewrite <- seq_shift, map_map.
              change ([2 ^ i * base_timeout] ++ ?l)%list
                with (2 ^ i * base_timeout :: l).
              rewrite Nat2Z.inj_0, Z.add_0_r.
              apply (f_equal (cons (2 ^ i * base_timeout))).
              apply map_ext. intros n.
              apply (f_equal (fun e => 2 ^ e * base_timeout)). lia.
           ++ intros H. injection H as _ <-. exists 0%nat. cbn.
              rewrite app_nil_r. split; [lia|]. eapply Hfn; exact Efn.
      * intros H. injection H as _ <-. exists 0%nat. cbn.
        rewrite app_nil_r. split; [lia|]. eapply Hfn; exact Efn.
      * intros H. injection H as _ <-. exists 0%nat. cbn.
        rewrite app_nil_r. split; [lia|]. eapply Hfn; exact Efn.
    + intros H. injection H as _ <-. exists 0%nat. cbn. rewrite app_nil_r.
      split; [lia|]. eapply Hfn; exact Efn.
Qed.

Lemma retry_loop_terminates {A : Type} G (fn : M A) :
  terminates fn ->
  forall fuel i w,
    0 <= i ->
    (Z.to_nat (max_tries - i) < fuel)%nat ->
    fst (retry_loop G fn fuel i w) <> OutOfFuel.
Proof.
  intros Hfn. induction fuel as [|fuel IH]; intros i w Hi Hfuel; [lia|].
  cbn [retry_loop]. specialize (Hfn w).
  destruct (fn w) as [[a|ex|] w1]; cbn [fst] in *; try discriminate;
    [|contradiction].
  unfold bind. pose proof (not_transient_terminates G ex w1) as Hnt.
  destruct (not_transient G ex w1) as [[giveup| |] w2]; cbn [fst] in *;
    try discriminate; [|contradiction].
  destruct giveup; [discriminate|].
  destruct (i <? max_tries) eqn:Elt; [|discriminate].
  apply Z.ltb_lt in Elt. cbn [sleep]. apply IH; unfold max_tries in *; lia.
Qed.

(** Whatever the namespace and the thunk, [retry] ends when the thunk does,
    and the time it sleeps is bounded: the delays it adds are the first [k]
    of 1, 2 and 4 seconds, for some [k]. *)
Theorem retry_bounded {A : Type} G (fn : M A) :
  never_sleeps fn ->
  terminates fn ->
  forall w,
    fst (retry G fn w) <> OutOfFuel /\
    exists k, slept (snd (retry G fn w)) = (slept w ++ firstn k [1; 2; 4])%list.
Proof.
  intros Hsleep Hterm w. split.
  - apply retry_loop_terminates; [exact Hterm|lia|cbn; lia].
  - destruct (retry_loop_delays G fn Hsleep 4 0 w _ _ (Z.le_refl 0)
                (surjective_pairing _)) as (k & Hk & Hs).
    exists k. unfold retry. rewrite Hs. f_equal.
    unfold max_tries in Hk.
    destruct k as [|[|[|[|k]]]]; try reflexivity. lia.
Qed.

Lemma retry_bounded_witness :
  fst (retry module_globals (sequence_value Second "orders_id_seq") world_flaky)
  <> OutOfFuel /\
  exists k,
    slept (snd (retry module_globals (sequence_value Second "orders_id_seq")
                      world_flaky))
    = (slept world_flaky ++ firstn k [1; 2; 4])%list.
Proof.
  apply (retry_bounded module_globals (sequence_value Second "orders_id_seq")).
  - intros w r w'. unfold sequence_value, run_statement.
    destruct (fault_at _ _);
      [|destruct (sequence_value_query _ _) as [e|[a d']]];
      intros H; injection H as _ <-; reflexivity.
  - intros w. unfold sequence_value, run_statement.
    destruct (fault_at _ _);
      [|destruct (sequence_value_query _ _) as [e|[a d']]];
      discriminate.
Defined.

Lemma retry_exhausts_witness :
  retry globals_with_DatabaseError (@raise unit OperationalError) world_flaky
  = (Raise OperationalError,
     slept_for 4 (slept_for 2 (slept_for 1 world_flaky))).
Proof.
  apply (retry_exhausts globals_with_DatabaseError
           (@raise unit OperationalError) (fun w => w)).
  - reflexivity.
  - intros w. reflexivity.
Defined.

(** In a namespace that binds [DatabaseError] to SQLAlchemy's class, [retry]
    recovers from a failure: when the first call raises a database error
    (an operational one, but a programming one as well) and the call made
    after one second returns, [retry] returns that result. *)
Theorem retry_recovers {A : Type} G (fn : M A) w ex w1 a w2 :
  load_global G "DatabaseError" = Some DatabaseError ->
  isinstance ex DatabaseError = true ->
  fn w = (Raise ex, w1) ->
  fn (slept_for 1 w1) = (Ret a, w2) ->
  retry G fn w = (Ret a, w2).
Proof.
  intros HG Hex Hfn1 Hfn2. unfold retry.
  assert (Hnt : not_transient G ex w1 = (Ret false, w1)).
  { unfold not_transient, load_class, bind. rewrite HG. cbn [ret].
    rewrite Hex. reflexivity. }
  rewrite (retry_loop_again G fn 3 0 w ex w1 Hfn1 Hnt) by (unfold max_tries; lia).
  change (2 ^ 0 * base_timeout) with 1.
  cbn [retry_loop]. rewrite Hfn2. reflexivity.
Qed.

Lemma retry_recovers_witness :
  exists w2,
    retry globals_with_DatabaseError (sequence_value Second "orders_id_seq")
          world_hiccup
    = (Ret 620, w2).
Proof.
  eexists.
  eapply (retry_recovers globals_with_DatabaseError
            (sequence_value Second "orders_id_seq") world_hiccup
            OperationalError); reflexivity.
Defined.

(** In a namespace that binds both [DatabaseError] and [OperationalError] to
    SQLAlchemy's classes, an exception that is not a database error goes
    through [retry] at once: one call, no sleep, the same exception. *)
Theorem retry_propagates_other_errors {A : Type} G (fn : M A) w ex w1 :
  load_global G "DatabaseError" = Some DatabaseError ->
  load_global G "OperationalError" = Some OperationalError ->
  isinstance ex DatabaseError = false ->
  fn w = (Raise ex, w1) ->
  retry G fn w = (Raise ex, w1).
Proof.
  intros HG1 HG2 Hex Hfn. unfold retry. cbn [retry_loop]. rewrite Hfn.
  unfold bind, not_transient, load_class, bind. rewrite HG1. cbn [ret].
  rewrite Hex. cbn [negb]. rewrite HG2. cbn [ret].
  assert (Hop : isinstance ex OperationalError = false).
  { destruct ex; try reflexivity; discriminate Hex. }
  rewrite Hop. reflexivity.
Qed.

Lemma retry_propagates_other_errors_witness :
  retry globals_with_DatabaseError (reflect_table Second "orders")
        world_missing_sequence
  = (Raise NoSuchTableError, world_missing_sequence).
Proof.
  apply (retry_propagates_other_errors globals_with_DatabaseError
           (reflect_table Second "orders") world_missing_sequence
           NoSuchTableError); reflexivity.
Defined.

(* ================================================================= *)
(** ** diff_sequence in the module as written *)

Lemma sequence_value_outcome s seq w :
  (exists v, lookup_succeeds s seq w v /\
             fst (sequence_value s seq w) = Ret v) \/
  ((forall v, ~ lookup_succeeds s seq w v) /\
   exists e, fst (sequence_value s seq w) = Raise e).
Proof.
  unfold lookup_succeeds, sequence_value, run_statement, sequence_value_query.
  destruct (fault_at (session s w) (length (executed (session s w))))
    as [e|] eqn:Ef.
  - right. split; [intros v [H _]; discriminate H|]. exists e. reflexivity.
  - destruct (assoc seq (sequences (db (session s w)))) as [v|] eqn:Ea.
    + left. exists v. repeat split; reflexivity.
    + right. split; [intros v [_ H]; discriminate H|].
      exists ProgrammingError. reflexivity.
Qed.

Lemma sequence_value_world s seq w :
  snd (sequence_value s seq w)
  = set_session s (mkSession (db (session s w)) Active
                     (executed (session s w) ++ [SequenceValue seq])
                     (fault_at (session s w))) w.
Proof.
  unfold sequence_value, run_statement, sequence_value_query.
  destruct (fault_at (session s w) (length (executed (session s w))));
    [reflexivity|].
  destruct (assoc seq (sequences (db (session s w)))); reflexivity.
Qed.

(** In the module as written, [diff_sequence] returns a verdict only when
    both lookups went through, and then the verdict is the one of the two
    values; no rollback has happened: both transactions are open. *)
Theorem diff_sequence_returns_after_both_lookups seq w v msg w' :
  diff_sequence module_globals seq w = (Ret (v, msg), w') ->
  exists a b,
    lookup_succeeds First seq w a /\
    lookup_succeeds Second seq w b /\
    (v = Match /\ a = b \/ v = Inconclusive /\ a < b \/ v = Mismatch /\ b < a) /\
    txn (firstsession w') = Active /\
    txn (secondsession w') = Active.
Proof.
  unfold diff_sequence, fetch_sequence_values, try_except.
  unfold bind at 1. unfold bind at 1. unfold bind at 1.
  rewrite retry_in_module.
  pose proof (sequence_value_world First seq w) as Hw1.
  destruct (sequence_value_outcome First seq w) as [(a & Ha & Hr)|(_ & e & Hr)];
    destruct (sequence_value First seq w) as [r1 w1]; cbn [fst snd] in *;
    subst r1; [|discriminate].
  unfold bind at 1. rewrite retry_in_module.
  pose proof (sequence_value_world Second seq w1) as Hw2.
  assert (Hsame : forall b, lookup_succeeds Second seq w1 b ->
                            lookup_succeeds Second seq w b).
  { subst w1. intros b H. exact H. }
  destruct (sequence_value_outcome Second seq w1) as [(b & Hb & Hr)|(_ & e & Hr)];
    destruct (sequence_value Second seq w1) as [r2 w2]; cbn [fst snd] in *;
    subst r2; [|discriminate].
  cbn [ret]. cbv beta iota.
  intros H. exists a, b. split; [exact Ha|]. split; [apply Hsame; exact Hb|].
  destruct (a <? b) eqn:Eab; [apply Z.ltb_lt in Eab|apply Z.ltb_ge in Eab].
  - injection H as <- _ <-. subst w2 w1. split; [|split; reflexivity].
    right. left. split; [reflexivity|lia].
  - destruct (b <? a) eqn:Eba; [apply Z.ltb_lt in Eba|apply Z.ltb_ge in Eba];
      injection H as <- _ <-; subst w2 w1; (split; [|split; reflexivity]).
    + right. right. split; [reflexivity|lia].
    + left. split; [reflexivity|lia].
Qed.

Lemma diff_sequence_returns_after_both_lookups_witness :
  exists a b,
    lookup_succeeds First "orders_id_seq" (world_sequences 620) a /\
    lookup_succeeds Second "orders_id_seq" (world_sequences 620) b /\
    (Inconclusive = Match /\ a = b \/ Inconclusive = Inconclusive /\ a < b
     \/ Inconclusive = Mismatch /\ b < a) /\
    txn (firstsession
           (snd (diff_sequence module_globals "orders_id_seq"
                               (world_sequences 620)))) = Active /\
    txn (secondsession
           (snd (diff_sequence module_globals "orders_id_seq"
                               (world_sequences 620)))) = Active.
Proof.
  apply (diff_sequence_returns_after_both_lookups "orders_id_seq"
           (world_sequences 620) Inconclusive
           "first sequence is less than the second(500 vs 620).").
  reflexivity.
Defined.

(** In the module as written, a lookup that does not go through (the
    sequence is missing, or the connection fails) ends [diff_sequence] with
    [NameError]: no verdict, no rollback (the transaction of every session
    that was used stays open), no sleep, and the second database is not
    asked when the first lookup fails. *)
Theorem diff_sequence_failed_lookup_raises seq w :
  ((forall a, ~ lookup_succeeds First seq w a) ->
   exists w',
     diff_sequence module_globals seq w = (Raise NameError, w') /\
     txn (firstsession w') = Active /\
     secondsession w' = secondsession w /\
     slept w' = slept w)
  /\
  (forall a,
     lookup_succeeds First seq w a ->
     (forall b, ~ lookup_succeeds Second seq w b) ->
     exists w',
       diff_sequence module_globals seq w = (Raise NameError, w') /\
       txn (firstsession w') = Active /\
       txn (secondsession w') = Active /\
       slept w' = slept w).
Proof.
  split.
  - intros Hfail.
    unfold diff_sequence, fetch_sequence_values, try_except.
    unfold bind at 1. unfold bind at 1. unfold bind at 1.
    rewrite retry_in_module.
    pose proof (sequence_value_world First seq w) as Hw1.
    destruct (sequence_value_outcome First seq w) as [(a & Ha & _)|(_ & e & Hr)];
      [exfalso; exact (Hfail a Ha)|].
    destruct (sequence_value First seq w) as [r1 w1]; cbn [fst snd] in *.
    subst r1 w1. eexists. split; [reflexivity|].
    repeat split; reflexivity.
  - intros a Ha Hfail.
    unfold diff_sequence, fetch_sequence_values, try_except.
    unfold bind at 1. unfold bind at 1. unfold bind at 1.
    rewrite retry_in_module.
    pose proof (sequence_value_world First seq w) as Hw1.
    destruct (sequence_value_outcome First seq w) as [(a' & _ & Hr)|(Hno & _)];
      [|exfalso; exact (Hno a Ha)].
    destruct (sequence_value First seq w) as [r1 w1]; cbn [fst snd] in *.
    subst r1.
    unfold bind at 1. rewrite retry_in_module.
    pose proof (sequence_value_world Second seq w1) as Hw2.
    destruct (sequence_value_outcome Second seq w1) as [(b & Hb & _)|(_ & e & Hr)].
    { exfalso. apply (Hfail b). subst w1. exact Hb. }
    destruct (sequence_value Second seq w1) as [r2 w2]; cbn [fst snd] in *.
    subst r2 w2 w1. eexists. split; [reflexivity|].
    repeat split; reflexivity.
Qed.

Lemma diff_sequence_failed_lookup_raises_witness :
  exists w',
    diff_sequence module_globals "orders_id_seq" world_missing_sequence
    = (Raise NameError, w') /\
    txn (firstsession w') = Active /\
    txn (secondsession w') = Active /\
    slept w' = slept world_missing_sequence.
Proof.
  apply (proj2 (diff_sequence_failed_lookup_raises "orders_id_seq"
                  world_missing_sequence) 500).
  - split; reflexivity.
  - intros b [_ H]. discriminate H.
Defined.

(* ================================================================= *)
(** ** Count-only mode *)

(** In count-only mode, for a table that is on both databases, over
    connections that work: different row counts give [Mismatch] with both
    counts in the text, equal counts of zero give [Inconclusive], and equal
    counts above zero give [Match]. The second count is asked a second time
    only to write the text of a mismatch. *)
Theorem count_only_verdicts G md5 fuel tablename w t1 t2 :
  count_only w = true ->
  assoc tablename (tables (db (firstsession w))) = Some t1 ->
  assoc tablename (tables (db (secondsession w))) = Some t2 ->
  healthy (firstsession w) ->
  healthy (secondsession w) ->
  let n1 := Z.of_nat (length (rows t1)) in
  let n2 := Z.of_nat (length (rows t2)) in
  exists w',
    diff_table_data G md5 fuel tablename w
    = (Ret (if negb (n1 =? n2)
            then (Mismatch,
                  "counts are different " ++ str_int n1 ++ " != " ++ str_int n2)
            else if n1 =? 0
                 then (Inconclusive, "tables are empty")
                 else (Match, "Counts are the same")),
       w') /\
    executed (firstsession w')
    = (executed (firstsession w) ++ [CountRows tablename])%list /\
    executed (secondsession w')
    = (executed (secondsession w)
       ++ if negb (n1 =? n2)
          then [CountRows tablename; CountRows tablename]
          else [CountRows tablename])%list.
Proof.
  intros Hmode Ht1 Ht2 Hh1 Hh2 n1 n2.
  assert (Hcount : exists w',
             count_only_diff tablename w
             = (Ret (if negb (n1 =? n2)
                     then (Mismatch,
                           "counts are different " ++ str_int n1 ++ " != "
                           ++ str_int n2)
                     else if n1 =? 0
                          then (Inconclusive, "tables are empty")
                          else (Match, "Counts are the same")),
                w') /\
             executed (firstsession w')
             = (executed (firstsession w) ++ [CountRows tablename])%list /\
             executed (secondsession w')
             = (executed (secondsession w)
                ++ if negb (n1 =? n2)
                   then [CountRows tablename; CountRows tablename]
                   else [CountRows tablename])%list).
  { unfold count_only_diff.
    erewrite bind_ret_eq.
    2:{ unfold reflect_table. cbn [session]. rewrite Ht1. reflexivity. }
    erewrite bind_ret_eq.
    2:{ unfold reflect_table. cbn [session]. rewrite Ht2. reflexivity. }
    erewrite bind_ret_eq.
    2:{ apply run_statement_ok; [apply Hh1|].
        cbn [session]. apply count_query_rows. exact Ht1. }
    erewrite bind_ret_eq.
    2:{ apply run_statement_ok; [apply Hh2|].
        cbn [session]. apply count_query_rows. exact Ht2. }
    fold n1 n2.
    destruct (negb (n1 =? n2)).
    - erewrite bind_ret_eq.
      2:{ apply run_statement_ok; [apply Hh2|].
          cbn [session set_session secondsession db].
          apply count_query_rows. exact Ht2. }
      fold n2. eexists. split; [reflexivity|].
      cbn. rewrite <- app_assoc. split; reflexivity.
    - destruct (n1 =? 0); eexists; (split; [reflexivity|]);
        cbn; split; reflexivity. }
  destruct Hcount as (w' & Hcount & Htrace). exists w'. split; [|exact Htrace].
  unfold diff_table_data.
  erewrite bind_ret_eq.
  2:{ apply try_except_ret.
      unfold bind at 1. unfold get_count_only at 1. rewrite Hmode.
      erewrite bind_ret_eq by exact Hcount. reflexivity. }
  reflexivity.
Qed.

Lemma count_only_verdicts_witness :
  exists w',
    diff_table_data module_globals plain_md5 0 "orders" world_run
    = (Ret (Match, "Counts are the same"), w') /\
    executed (firstsession w') = [CountRows "orders"] /\
    executed (secondsession w') = [CountRows "orders"].
Proof.
  apply (count_only_verdicts module_globals plain_md5 0 "orders" world_run
           (orders [1; 2]) (orders [3; 4]));
    try reflexivity; intros n; reflexivity.
Defined.

(* ================================================================= *)
(** ** The default mode *)

Lemma filter_all {A : Type} (f : A -> bool) (l : list A) :
  (forall x, f x = true) -> filter f l = l.
Proof.
  intros Hf. induction l as [|x l IH]; cbn; [reflexivity|].
  rewrite Hf, IH. reflexivity.
Qed.

(** Without offset the condition of the paging query holds for every row. *)
Lemma page_of_first_round t pks chunk bounds :
  page_of (columns t) (rows t) pks chunk (Some false) bounds
  = first_page t pks chunk.
Proof.
  unfold page_of, first_page. rewrite filter_all; [reflexivity|].
  intros row. unfold selected, where_clause. cbn [sql_not option_map negb].
  destruct (fold_right sql_and (Some true) _) as [[|]|]; reflexivity.
Qed.

(** The first iteration of the loop, up to the comparisons. *)
Lemma page_loop_first_round G md5 fuel tablename pks w t1 t2 :
  assoc tablename (tables (db (firstsession w))) = Some t1 ->
  assoc tablename (tables (db (secondsession w))) = Some t2 ->
  has_routine (db (firstsession w)) "public.last" = true ->
  has_routine (db (secondsession w)) "public.last" = true ->
  forallb (has_column t1) pks = true ->
  forallb (has_column t2) pks = true ->
  ~ In "has_offset" pks ->
  0 <= chunk_size w ->
  healthy (firstsession w) ->
  healthy (secondsession w) ->
  exists w2,
    page_loop G md5 (S fuel) tablename pks false 0 (initial_offsets pks) w
    = (let page1 := first_page t1 pks (chunk_size w) in
       let page2 := first_page t2 pks (chunk_size w) in
       let offsets := first_offsets pks in
       if negb (hash_eqb (page_hash md5 page1) (page_hash md5 page2))
       then ret (Mismatch,
                 "data hash are different at row " ++ str_int 0
                 ++ "; offsets: " ++ repr_dict offsets)
       else if negb (cells_eqb (last_keys t1 pks page1) (last_keys t2 pks page2))
       then ret (Mismatch,
                 "data pks are different  at row " ++ str_int 0
                 ++ ";offsets: " ++ repr_dict offsets)
       else
         chunk' <- get_chunk_size ;;
         offsets' <- store_cursor pks 0 (last_keys t1 pks page1) offsets ;;
         page_loop G md5 fuel tablename pks false (0 + chunk') offsets') w2.
Proof.
  intros Ht1 Ht2 Hl1 Hl2 Hk1 Hk2 Hclash Hchunk Hh1 Hh2.
  assert (Hb : forall k, In k pks -> cursor_bound (initial_offsets pks) k)
    by apply initial_offsets_bound.
  destruct (page_query_result md5 (db (firstsession w)) tablename t1 pks
              (chunk_size w) (initial_offsets pks) false
              Ht1 Hl1 Hk1 Hclash Hchunk Hb) as (bounds & Hbounds & Hq1).
  destruct (page_query_result md5 (db (secondsession w)) tablename t2 pks
              (chunk_size w) (initial_offsets pks) false
              Ht2 Hl2 Hk2 Hclash Hchunk Hb) as (bounds2 & Hbounds2 & Hq2).
  rewrite Hbounds in Hbounds2. injection Hbounds2 as <-.
  rewrite page_of_first_round in Hq1, Hq2.
  eexists. cbn [page_loop].
  erewrite bind_ret_eq by reflexivity. cbv beta zeta.
  change (dict_set "has_offset" (PyBool (0 <? 0)) (initial_offsets pks))
    with (first_offsets pks).
  erewrite bind_ret_eq.
  2:{ apply execute_page_returns; cbn [session]; [apply Hh1|exact Hq1]. }
  erewrite bind_ret_eq.
  2:{ apply execute_page_returns; cbn [session set_session secondsession];
        [apply Hh2|exact Hq2]. }
  cbn [rowcount fetchone]. rewrite Z.eqb_refl. cbn [negb].
  unfold unpack_row at 1. cbn [fetchone].
  erewrite bind_ret_eq by reflexivity.
  unfold unpack_row at 1. cbn [fetchone].
  erewrite bind_ret_eq by reflexivity.
  cbv beta iota. reflexivity.
Qed.

(** The first round decides when the first pages differ: on two tables with
    the key columns of the first one, with the aggregate installed and
    connections that work, [diff_table_data] returns [Mismatch] at row 0 when
    the digests of the two first pages differ, and also when the digests agree
    but the last keys of the two pages differ. *)
Theorem first_round_mismatch G md5 fuel tablename w t1 t2 :
  count_only w = false ->
  assoc tablename (tables (db (firstsession w))) = Some t1 ->
  assoc tablename (tables (db (secondsession w))) = Some t2 ->
  pk_columns t1 <> [] ->
  has_routine (db (firstsession w)) "public.last" = true ->
  has_routine (db (secondsession w)) "public.last" = true ->
  forallb (has_column t1) (pk_columns t1) = true ->
  forallb (has_column t2) (pk_columns t1) = true ->
  ~ In "has_offset" (pk_columns t1) ->
  0 <= chunk_size w ->
  healthy (firstsession w) ->
  healthy (secondsession w) ->
  (hash_eqb (page_hash md5 (first_page t1 (pk_columns t1) (chunk_size w)))
            (page_hash md5 (first_page t2 (pk_columns t1) (chunk_size w)))
   = false ->
   exists w',
     diff_table_data G md5 (S fuel) tablename w
     = (Ret (Mismatch,
             "data hash are different at row 0; offsets: "
             ++ repr_dict (first_offsets (pk_columns t1))), w'))
  /\
  (hash_eqb (page_hash md5 (first_page t1 (pk_columns t1) (chunk_size w)))
            (page_hash md5 (first_page t2 (pk_columns t1) (chunk_size w)))
   = true ->
   cells_eqb
     (last_keys t1 (pk_columns t1)
                (first_page t1 (pk_columns t1) (chunk_size w)))
     (last_keys t2 (pk_columns t1)
                (first_page t2 (pk_columns t1) (chunk_size w)))
   = false ->
   exists w',
     diff_table_data G md5 (S fuel) tablename w
     = (Ret (Mismatch,
             "data pks are different  at row 0;offsets: "
             ++ repr_dict (first_offsets (pk_columns t1))), w')).
Proof.
  intros Hmode Ht1 Ht2 Hpk Hl1 Hl2 Hk1 Hk2 Hclash Hchunk Hh1 Hh2.
  rewrite (diff_table_data_hash_mode G md5 (S fuel) tablename w t1 Hmode Ht1).
  destruct (page_loop_first_round G md5 fuel tablename (pk_columns t1) w t1 t2
              Ht1 Ht2 Hl1 Hl2 Hk1 Hk2 Hclash Hchunk Hh1 Hh2) as [w2 Hstart].
  destruct (pk_columns t1) as [|pk pks'] eqn:Epks; [contradiction|].
  cbv beta iota zeta. rewrite Hstart. cbv zeta. split.
  - intros Hhash. rewrite Hhash. cbn [negb]. eexists. reflexivity.
  - intros Hhash Hkeys. rewrite Hhash, Hkeys. cbn [negb]. eexists. reflexivity.
Qed.

Lemma first_round_mismatch_witness :
  exists w',
    diff_table_data module_globals plain_md5 1 "orders"
                    (world_orders_differ [1; 2] [1; 3] 2)
    = (Ret (Mismatch,
            "data hash are different at row 0; offsets: "
            ++ "{'id': None, 'has_offset': False}"), w').
Proof.
  apply (proj1 (first_round_mismatch module_globals plain_md5 0 "orders"
                  (world_orders_differ [1; 2] [1; 3] 2)
                  (orders [1; 2]) (orders [1; 3])
                  eq_refl eq_refl eq_refl
                  ltac:(discriminate) eq_refl eq_refl eq_refl eq_refl
                  ltac:(cbn; intros [H|[]]; discriminate H)
                  ltac:(cbn; lia)
                  (fun n => eq_refl) (fun n => eq_refl))).
  reflexivity.
Defined.

(** In the default mode the only verdicts that [diff_table_data] can return
    are [Inconclusive] for a table without primary key, before any statement
    is sent, and [Mismatch]; it never returns [Match]. *)
Theorem hash_mode_verdicts G md5 fuel tablename w v msg w' :
  count_only w = false ->
  diff_table_data G md5 fuel tablename w = (Ret (v, msg), w') ->
  (v = Inconclusive /\ msg = no_primary_key_message /\ w' = w) \/
  v = Mismatch.
Proof.
  intros Hmode. unfold diff_table_data.
  erewrite bind_ret_eq.
  2:{ apply try_except_ret. unfold bind, get_count_only. rewrite Hmode.
      reflexivity. }
  cbv beta iota. unfold bind, get_pk_constraint, bind, reflect_table.
  destruct (assoc tablename (tables (db (session First w)))) as [t|];
    [|discriminate].
  cbn [ret]. destruct (pk_columns t) as [|pk pks].
  - intros H. injection H as <- <- <-. left. repeat split; reflexivity.
  - intros H. right. eapply page_loop_returns_only_Mismatch. exact H.
Qed.

Lemma hash_mode_verdicts_witness :
  (Mismatch = Inconclusive /\
   "data hash are different at row 0; offsets: {'id': None, 'has_offset': False}"
   = no_primary_key_message /\
   snd (diff_table_data module_globals plain_md5 1 "orders"
                        (world_orders_differ [1; 2] [1; 3] 2))
   = world_orders_differ [1; 2] [1; 3] 2) \/
  Mismatch = Mismatch.
Proof.
  apply (hash_mode_verdicts module_globals plain_md5 1 "orders"
           (world_orders_differ [1; 2] [1; 3] 2)).
  - reflexivity.
  - reflexivity.
Defined.

Lemma page_query_missing_table md5 q params d :
  assoc (from_table q) (tables d) = None ->
  exists e, page_query md5 q params d = inl e.
Proof.
  intros Hmissing. unfold page_query, page_rows.
  destruct (negb (has_routine d "public.last")); [eexists; reflexivity|].
  destruct (bind_bool params "has_offset"); [eexists; reflexivity|].
  destruct (bind_ints params (offset_cols q)); [eexists; reflexivity|].
  rewrite Hmissing. eexists. reflexivity.
Qed.

(** The default mode has no verdict for a missing table. When the table is
    missing from the first database, [NoSuchTableError] comes out of
    [diff_table_data], uncaught and before any statement. When the table has
    a primary key on the first database and is missing from the second, the
    call of the module as written ends with [NameError] in its first round. *)
Theorem hash_mode_missing_table md5 fuel tablename w :
  count_only w = false ->
  (assoc tablename (tables (db (firstsession w))) = None ->
   diff_table_data module_globals md5 fuel tablename w
   = (Raise NoSuchTableError, w))
  /\
  (forall t1,
     assoc tablename (tables (db (firstsession w))) = Some t1 ->
     pk_columns t1 <> [] ->
     assoc tablename (tables (db (secondsession w))) = None ->
     exists w',
       diff_table_data module_globals md5 (S fuel) tablename w
       = (Raise NameError, w')).
Proof.
  intros Hmode. split.
  - intros Hmissing. unfold diff_table_data.
    erewrite bind_ret_eq.
    2:{ apply try_except_ret. unfold bind, get_count_only. rewrite Hmode.
        reflexivity. }
    cbv beta iota. apply bind_raise_eq. unfold get_pk_constraint.
    apply bind_raise_eq. unfold reflect_table. cbn [session].
    rewrite Hmissing. reflexivity.
  - intros t1 Ht1 Hpk Hmissing.
    rewrite (diff_table_data_hash_mode module_globals md5 (S fuel) tablename w
               t1 Hmode Ht1).
    destruct (pk_columns t1) as [|pk pks]; [contradiction|].
    cbv beta iota. cbn [page_loop]. unfold bind at 1.
    cbn [get_chunk_size]. unfold bind at 1.
    rewrite retry_in_module.
    destruct (execute_page md5 First _ _ w) as [[r1|e1|] w1] eqn:E1.
    + unfold bind at 1. rewrite retry_in_module.
      assert (Hdb : db (secondsession w1) = db (secondsession w)).
      { pose proof (keeps_data_run_statement First _ _
                      (read_only_page_query md5 _ _) _ _ _ E1) as Hk.
        apply Hk. }
      unfold execute_page, run_statement. cbn [session].
      destruct (fault_at (secondsession w1) _); [eexists; reflexivity|].
      destruct (page_query_missing_table md5
                  (SQL_TEMPLATE_HASH tablename (pk :: pks) (chunk_size w))
                  (dict_set "has_offset" (PyBool (0 <? 0))
                            (initial_offsets (pk :: pks)))
                  (db (secondsession w1))) as [e He].
      { rewrite Hdb. exact Hmissing. }
      rewrite He. eexists. reflexivity.
    + eexists. reflexivity.
    + exfalso. unfold execute_page, run_statement in E1.
      destruct (fault_at _ _); [discriminate|].
      destruct (page_query _ _ _ _) as [e|[a d']]; discriminate.
Qed.

Lemma hash_mode_missing_table_witness :
  exists w',
    diff_table_data module_globals plain_md5 1 "orders"
                    world_orders_missing_on_target
    = (Raise NameError, w').
Proof.
  apply (proj2 (hash_mode_missing_table plain_md5 0 "orders"
                  world_orders_missing_on_target eq_refl)
           (orders [1; 2; 3])).
  - reflexivity.
  - discriminate.
  - reflexivity.
Defined.

(* ================================================================= *)
(** ** The rows of a page *)

Lemma insert_row_In cols order r l x :
  In x (insert_row cols order r l) <-> x = r \/ In x l.
Proof.
  induction l as [|r' l IH]; cbn.
  - intuition congruence.
  - destruct (row_leb cols order r r'); cbn; [intuition congruence|].
    rewrite IH. intuition congruence.
Qed.

Lemma order_rows_In cols order l x :
  In x (order_rows cols order l) <-> In x l.
Proof.
  unfold order_rows. induction l as [|r l IH]; cbn; [reflexivity|].
  rewrite insert_row_In, IH. intuition congruence.
Qed.

Lemma insert_row_length cols order r l :
  length (insert_row cols order r l) = S (length l).
Proof.
  induction l as [|r' l IH]; cbn; [reflexivity|].
  destruct (row_leb cols order r r'); cbn; [reflexivity|].
  rewrite IH. reflexivity.
Qed.

Lemma order_rows_length cols order l :
  length (order_rows cols order l) = length l.
Proof.
  unfold order_rows. induction l as [|r l IH]; cbn; [reflexivity|].
  rewrite insert_row_length, IH. reflexivity.
Qed.

Lemma firstn_In_list {A : Type} (n : nat) (l : list A) x :
  In x (firstn n l) -> In x l.
Proof.
  revert l. induction n as [|n IH]; intros [|y l]; cbn; try tauto.
  intros [->|H]; [left; reflexivity|right; apply IH; exact H].
Qed.

Lemma bind_ints_In params cols bounds pk c :
  bind_ints params cols = inr bounds ->
  In pk cols ->
  dict_get params pk = Some c ->
  exists v, In (pk, v) bounds /\ c = py_of_cell v.
Proof.
  revert bounds. induction cols as [|k cols IH]; intros bounds; cbn;
    [intros _ []|].
  unfold bind_int at 1.
  destruct (dict_get params k) as [[| |z]|] eqn:Ek; try discriminate;
    destruct (bind_ints params cols) as [e|vs]; try discriminate;
    intros H; injection H as <-; intros [->|Hin] Hc.
  - rewrite Ek in Hc. injection Hc as <-. exists None. split; [left|]; reflexivity.
  - destruct (IH vs eq_refl Hin Hc) as (v & Hv & ->).
    exists v. split; [right; exact Hv|reflexivity].
  - rewrite Ek in Hc. injection Hc as <-. exists (Some z).
    split; [left|]; reflexivity.
  - destruct (IH vs eq_refl Hin Hc) as (v & Hv & ->).
    exists v. split; [right; exact Hv|reflexivity].
Qed.

Lemma sql_and_all_true (l : list (option bool)) :
  fold_right sql_and (Some true) l = Some true ->
  forall x, In x l -> x = Some true.
Proof.
  induction l as [|y l IH]; cbn; [intros _ x []|].
  intros H x [<-|Hin].
  - destruct y as [[|]|], (fold_right sql_and (Some true) l) as [[|]|];
      cbn in H; congruence.
  - apply IH; [|exact Hin].
    destruct y as [[|]|], (fold_right sql_and (Some true) l) as [[|]|];
      cbn in H; congruence.
Qed.

Lemma selected_with_offset cols bounds row :
  selected cols (Some true) bounds row = true ->
  forall pk v, In (pk, v) bounds ->
    exists x c, cell cols row pk = Some x /\ v = Some c /\ c <= x.
Proof.
  unfold selected, where_clause. cbn [sql_not option_map negb].
  intros Hsel pk v Hin.
  assert (Hall : fold_right sql_and (Some true)
                   (map (fun b => sql_ge (cell cols row (fst b)) (snd b)) bounds)
                 = Some true).
  { destruct (fold_right sql_and (Some true) _) as [[|]|];
      cbn in Hsel; [reflexivity|discriminate|discriminate]. }
  assert (Hge : sql_ge (cell cols row pk) v = Some true).
  { apply (sql_and_all_true _ Hall).
    apply in_map_iff. exists (pk, v). split; [reflexivity|exact Hin]. }
  unfold sql_ge in Hge.
  destruct (cell cols row pk) as [x|], v as [c|]; try discriminate.
  injection Hge as Hle. apply Z.leb_le in Hle. exists x, c. auto.
Qed.

Lemma last_In (l : list (option Z)) :
  forall acc z, fold_left last_agg l acc = Some z ->
                In (Some z) l \/ acc = Some z.
Proof.
  induction l as [|[x|] l IH]; intros acc z; cbn.
  - intros H. right. exact H.
  - intros H. destruct (IH _ _ H) as [Hin|Hacc].
    + left. right. exact Hin.
    + left. left. exact Hacc.
  - intros H. destruct (IH _ _ H) as [Hin|Hacc].
    + left. right. exact Hin.
    + right. exact Hacc.
Qed.

(** After the first round, every row of a page is a row of the table, and on
    every key column it holds a value that is at least the cursor's (the
    bound includes the cursor). So the [last] key that becomes the next
    cursor is never below the current one. *)
Theorem page_rows_from_cursor d q params t page :
  page_rows d q params = inr page ->
  assoc (from_table q) (tables d) = Some t ->
  dict_get params "has_offset" = Some (PyBool true) ->
  (forall row, In row page ->
     In row (rows t) /\
     forall pk c, In pk (offset_cols q) ->
                  dict_get params pk = Some (PyInt c) ->
                  exists x, cell (columns t) row pk = Some x /\ c <= x)
  /\
  (forall pk c z, In pk (offset_cols q) ->
                  dict_get params pk = Some (PyInt c) ->
                  last (map (fun r => cell (columns t) r pk) page) = Some z ->
                  c <= z).
Proof.
  intros Hpage Ht Hoff.
  assert (Hrows : forall row, In row page ->
     In row (rows t) /\
     forall pk c, In pk (offset_cols q) ->
                  dict_get params pk = Some (PyInt c) ->
                  exists x, cell (columns t) row pk = Some x /\ c <= x).
  { unfold page_rows, bind_bool in Hpage. rewrite Hoff, Ht in Hpage.
    destruct (bind_ints params (offset_cols q)) as [e|bounds] eqn:Eb;
      [discriminate|].
    destruct (negb _); [discriminate|].
    destruct (limit q <? 0); [discriminate|].
    injection Hpage as <-.
    intros row Hin. apply firstn_In_list, order_rows_In, filter_In in Hin.
    destruct Hin as [Hin Hsel]. split; [exact Hin|].
    intros pk c Hpk Hc.
    destruct (bind_ints_In _ _ _ _ _ Eb Hpk Hc) as (v & Hv & Hcv).
    destruct (selected_with_offset _ _ _ Hsel pk v Hv) as (x & c' & Hx & -> & Hle).
    injection Hcv as ->. exists x. split; assumption. }
  split; [exact Hrows|].
  intros pk c z Hpk Hc Hlast. unfold last in Hlast.
  apply last_In in Hlast. destruct Hlast as [Hin|Hnone]; [|discriminate].
  apply in_map_iff in Hin. destruct Hin as (row & Hcell & Hrow).
  destruct (proj2 (Hrows row Hrow) pk c Hpk Hc) as (x & Hx & Hle).
  rewrite Hx in Hcell. injection Hcell as <-. exact Hle.
Qed.

Lemma page_rows_from_cursor_witness :
  (forall row, In row [order_row 2; order_row 3] ->
     In row (rows (orders [1; 2; 3])) /\
     forall pk c, In pk ["id"] ->
                  dict_get [("id", PyInt 2); ("has_offset", PyBool true)] pk
                  = Some (PyInt c) ->
                  exists x, cell (columns (orders [1; 2; 3])) row pk = Some x
                            /\ c <= x)
  /\
  (forall pk c z, In pk ["id"] ->
                  dict_get [("id", PyInt 2); ("has_offset", PyBool true)] pk
                  = Some (PyInt c) ->
                  last (map (fun r => cell (columns (orders [1; 2; 3])) r pk)
                            [order_row 2; order_row 3]) = Some z ->
                  c <= z).
Proof.
  apply (page_rows_from_cursor (orders_db [1; 2; 3])
           (SQL_TEMPLATE_HASH "orders" ["id"] 2)
           [("id", PyInt 2); ("has_offset", PyBool true)]
           (orders [1; 2; 3]) [order_row 2; order_row 3]);
    reflexivity.
Defined.

(** The first round ignores the cursor: its page has the smaller of the
    chunk size and the number of rows of the table. *)
Theorem first_page_size d q params t page :
  page_rows d q params = inr page ->
  assoc (from_table q) (tables d) = Some t ->
  dict_get params "has_offset" = Some (PyBool false) ->
  length page = Nat.min (Z.to_nat (limit q)) (length (rows t)).
Proof.
  intros Hpage Ht Hoff.
  unfold page_rows, bind_bool in Hpage. rewrite Hoff, Ht in Hpage.
  destruct (bind_ints params (offset_cols q)) as [e|bounds]; [discriminate|].
  destruct (negb _); [discriminate|].
  destruct (limit q <? 0); [discriminate|].
  injection Hpage as <-.
  rewrite length_firstn, order_rows_length, filter_all; [reflexivity|].
  intros row. unfold selected, where_clause. cbn [sql_not option_map negb].
  destruct (fold_right sql_and (Some true) _) as [[|]|]; reflexivity.
Qed.

Lemma first_page_size_witness :
  length [order_row 1; order_row 2]
  = Nat.min (Z.to_nat 2) (length (rows (orders [1; 2; 3]))).
Proof.
  apply (first_page_size (orders_db [1; 2; 3])
           (SQL_TEMPLATE_HASH "orders" ["id"] 2)
           [("id", PyNone); ("has_offset", PyBool false)]
           (orders [1; 2; 3]) [order_row 1; order_row 2]);
    reflexivity.
Defined.

Lemma sql_and_with_unknown (l : list (option bool)) :
  In None l -> fold_right sql_and (Some true) l <> Some true.
Proof.
  intros Hin H. pose proof (sql_and_all_true l H None Hin). discriminate.
Qed.

(** A cursor that holds [None] for a key column, as it does after an empty
    page, selects nothing: with the offset active, the comparison with
    [NULL] is unknown for every row, and the page is empty. *)
Theorem null_cursor_selects_nothing d q params page pk :
  page_rows d q params = inr page ->
  dict_get params "has_offset" = Some (PyBool true) ->
  In pk (offset_cols q) ->
  dict_get params pk = Some PyNone ->
  page = [].
Proof.
  intros Hpage Hoff Hpk Hnone.
  unfold page_rows, bind_bool in Hpage. rewrite Hoff in Hpage.
  destruct (bind_ints params (offset_cols q)) as [e|bounds] eqn:Eb;
    [discriminate|].
  destruct (assoc (from_table q) (tables d)) as [t|]; [|discriminate].
  destruct (negb _); [discriminate|].
  destruct (limit q <? 0); [discriminate|].
  injection Hpage as <-.
  destruct (bind_ints_In _ _ _ _ _ Eb Hpk Hnone) as (v & Hv & Hcv).
  destruct v as [z|]; [discriminate|].
  assert (Hfilter : filter (selected (columns t) (Some true) bounds) (rows t) = []).
  { induction (rows t) as [|row l IH]; cbn; [reflexivity|].
    rewrite IH.
    destruct (selected (columns t) (Some true) bounds row) eqn:Hsel;
      [|reflexivity].
    destruct (selected_with_offset _ _ _ Hsel pk None Hv) as (x & c & _ & H & _).
    discriminate H. }
  rewrite Hfilter. cbn. apply firstn_nil.
Qed.

Lemma null_cursor_selects_nothing_witness :
  exists page,
    page_rows (orders_db [1; 2; 3]) (SQL_TEMPLATE_HASH "orders" ["id"] 2)
              [("id", PyNone); ("has_offset", PyBool true)]
    = inr page /\
    page = [].
Proof.
  eexists. split; [reflexivity|].
  apply (null_cursor_selects_nothing (orders_db [1; 2; 3])
           (SQL_TEMPLATE_HASH "orders" ["id"] 2)
           [("id", PyNone); ("has_offset", PyBool true)] [] "id").
  - reflexivity.
  - reflexivity.
  - left. reflexivity.
  - reflexivity.
Defined.

(** The aggregate [last] built on [last_agg]: it is [NULL] on no input, it
    is the final input when that one is not [NULL], and it skips a final
    [NULL]. *)
Theorem last_is_final_non_null :
  last [] = None /\
  (forall l z, last (l ++ [Some z]) = Some z) /\
  (forall l, last (l ++ [None]) = last l).
Proof.
  unfold last. split; [reflexivity|]. split.
  - intros l z. rewrite fold_left_app. reflexivity.
  - intros l. rewrite fold_left_app. reflexivity.
Qed.

(* ================================================================= *)
(** ** More on the orchestration *)

Lemma install_last_catalog (d : Database) :
  has_routine d "public.last" = false ->
  exists d',
    install_last_query d = inr (tt, d') /\
    has_routine d' "public.last" = true /\
    has_routine d' "public.last_agg" = true /\
    tables d' = tables d /\
    sequences d' = sequences d.
Proof.
  intros Hlast. unfold install_last_query, create_aggregate,
    create_or_replace_function.
  destruct (has_routine d "public.last_agg") eqn:Hagg.
  - rewrite Hlast. eexists. split; [reflexivity|].
    unfold has_routine in *. cbn [routines tables sequences].
    rewrite !existsb_app, Hagg. cbn [existsb].
    rewrite String.eqb_refl, !orb_true_r.
    repeat split; reflexivity.
  - assert (H : has_routine
                  (mkDatabase (tables d) (sequences d)
                              (routines d ++ ["public.last_agg"]))
                  "public.last" = false).
    { unfold has_routine in *. cbn [routines]. rewrite existsb_app, Hlast.
      reflexivity. }
    rewrite H. eexists. split; [reflexivity|].
    unfold has_routine in *. cbn [routines tables sequences].
    rewrite !existsb_app. cbn [existsb].
    rewrite !String.eqb_refl, !orb_true_r.
    repeat split; reflexivity.
Qed.

Lemma create_aggregate_functions_fresh w :
  has_routine (db (firstsession w)) "public.last" = false ->
  has_routine (db (secondsession w)) "public.last" = false ->
  fault_at (firstsession w) (length (executed (firstsession w))) = None ->
  fault_at (secondsession w) (length (executed (secondsession w))) = None ->
  exists w',
    create_aggregate_functions w = (Ret tt, w') /\
    has_routine (db (firstsession w')) "public.last" = true /\
    has_routine (db (firstsession w')) "public.last_agg" = true /\
    has_routine (db (secondsession w')) "public.last" = true /\
    has_routine (db (secondsession w')) "public.last_agg" = true /\
    txn (firstsession w') = Idle /\
    txn (secondsession w') = Idle /\
    tables (db (firstsession w')) = tables (db (firstsession w)) /\
    sequences (db (firstsession w')) = sequences (db (firstsession w)) /\
    tables (db (secondsession w')) = tables (db (secondsession w)) /\
    sequences (db (secondsession w')) = sequences (db (secondsession w)).
Proof.
  intros Hl1 Hl2 Hf1 Hf2.
  destruct (install_last_catalog _ Hl1) as (d1 & Hi1 & Ha1 & Hb1 & Ht1 & Hs1).
  destruct (install_last_catalog _ Hl2) as (d2 & Hi2 & Ha2 & Hb2 & Ht2 & Hs2).
  eexists. unfold create_aggregate_functions.
  erewrite bind_ret_eq.
  2:{ apply run_statement_ok; [exact Hf1|exact Hi1]. }
  erewrite bind_ret_eq.
  2:{ apply run_statement_ok; [exact Hf2|exact Hi2]. }
  split; [reflexivity|]. cbn.
  repeat split; assumption.
Qed.

(** On two databases that do not have the aggregate yet, over connections
    that work, [create_aggregate_functions] installs [public.last_agg] and
    [public.last] on both and commits both sessions; tables and sequences
    are untouched. *)
Theorem create_aggregate_functions_installs w :
  has_routine (db (firstsession w)) "public.last" = false ->
  has_routine (db (secondsession w)) "public.last" = false ->
  fault_at (firstsession w) (length (executed (firstsession w))) = None ->
  fault_at (secondsession w) (length (executed (secondsession w))) = None ->
  exists w',
    create_aggregate_functions w = (Ret tt, w') /\
    has_routine (db (firstsession w')) "public.last" = true /\
    has_routine (db (firstsession w')) "public.last_agg" = true /\
    has_routine (db (secondsession w')) "public.last" = true /\
    has_routine (db (secondsession w')) "public.last_agg" = true /\
    txn (firstsession w') = Idle /\
    txn (secondsession w') = Idle /\
    tables (db (firstsession w')) = tables (db (firstsession w)) /\
    sequences (db (firstsession w')) = sequences (db (firstsession w)) /\
    tables (db (secondsession w')) = tables (db (secondsession w)) /\
    sequences (db (secondsession w')) = sequences (db (secondsession w)).
Proof.
  intros Hl1 Hl2 Hf1 Hf2.
  destruct (install_last_catalog _ Hl1) as (d1 & Hi1 & Ha1 & Hb1 & Ht1 & Hs1).
  destruct (install_last_catalog _ Hl2) as (d2 & Hi2 & Ha2 & Hb2 & Ht2 & Hs2).
  eexists. unfold create_aggregate_functions.
  erewrite bind_ret_eq.
  2:{ apply run_statement_ok; [exact Hf1|exact Hi1]. }
  erewrite bind_ret_eq.
  2:{ apply run_statement_ok; [exact Hf2|exact Hi2]. }
  split; [reflexivity|]. cbn.
  repeat split; assumption.
Qed.

Lemma create_aggregate_functions_installs_witness :
  exists w',
    create_aggregate_functions world_uninstalled = (Ret tt, w') /\
    has_routine (db (firstsession w')) "public.last" = true /\
    has_routine (db (firstsession w')) "public.last_agg" = true /\
    has_routine (db (secondsession w')) "public.last" = true /\
    has_routine (db (secondsession w')) "public.last_agg" = true /\
    txn (firstsession w') = Idle /\
    txn (secondsession w') = Idle /\
    tables (db (firstsession w')) = tables (db (firstsession world_uninstalled)) /\
    sequences (db (firstsession w'))
    = sequences (db (firstsession world_uninstalled)) /\
    tables (db (secondsession w'))
    = tables (db (secondsession world_uninstalled)) /\
    sequences (db (secondsession w'))
    = sequences (db (secondsession world_uninstalled)).
Proof.
  apply (create_aggregate_functions_installs world_uninstalled); reflexivity.
Defined.

(** When only the second database has the aggregate, the call installs it on
    the first database, is refused on the second, and raises
    [ProgrammingError] with nothing committed: both transactions stay open. *)
Theorem create_aggregate_functions_half_installed w :
  has_routine (db (firstsession w)) "public.last" = false ->
  has_routine (db (secondsession w)) "public.last" = true ->
  fault_at (firstsession w) (length (executed (firstsession w))) = None ->
  fault_at (secondsession w) (length (executed (secondsession w))) = None ->
  exists w',
    create_aggregate_functions w = (Raise ProgrammingError, w') /\
    has_routine (db (firstsession w')) "public.last" = true /\
    txn (firstsession w') = Active /\
    txn (secondsession w') = Active.
Proof.
  intros Hl1 Hl2 Hf1 Hf2.
  destruct (install_last_catalog _ Hl1) as (d1 & Hi1 & Ha1 & _).
  eexists. unfold create_aggregate_functions.
  erewrite bind_ret_eq.
  2:{ apply run_statement_ok; [exact Hf1|exact Hi1]. }
  erewrite bind_raise_eq.
  2:{ unfold run_statement. cbn [session set_session secondsession].
      rewrite Hf2, (install_last_refused _ Hl2). reflexivity. }
  split; [reflexivity|]. cbn. repeat split; assumption.
Qed.

Lemma create_aggregate_functions_half_installed_witness :
  exists w',
    create_aggregate_functions world_half_installed
    = (Raise ProgrammingError, w') /\
    has_routine (db (firstsession w')) "public.last" = true /\
    txn (firstsession w') = Active /\
    txn (secondsession w') = Active.
Proof.
  apply (create_aggregate_functions_half_installed world_half_installed);
    reflexivity.
Defined.

Lemma get_all_sequences_outcome w names w1 :
  get_all_sequences w = (Ret names, w1) ->
  names = map fst (sequences (db (firstsession w))) /\
  stdout_isatty w1 = stdout_isatty w.
Proof.
  unfold get_all_sequences, run_statement, sequence_names_query.
  cbn [session]. destruct (fault_at _ _); [discriminate|].
  intros H. injection H as <- <-. split; reflexivity.
Qed.

(** Off a terminal, [diff_all_sequences] does not get past its first
    sequence: once that sequence is compared, [StatusUpdate.complete] reads
    the attribute [spinner], which [__init__] did not set, and
    [AttributeError] ends the run. *)
Theorem diff_all_sequences_off_terminal G w names w1 entity rest v msg w2 :
  stdout_isatty w = false ->
  get_all_sequences w = (Ret names, w1) ->
  sorted names = entity :: rest ->
  diff_sequence G entity w1 = (Ret (v, msg), w2) ->
  diff_all_sequences G w = (Raise AttributeError, w2).
Proof.
  intros Htty Hnames Hsorted Hdiff.
  destruct (get_all_sequences_outcome w names w1 Hnames) as [_ Htty1].
  unfold diff_all_sequences.
  erewrite bind_ret_eq by exact Hnames.
  apply bind_raise_eq. rewrite Hsorted.
  eapply analyse_all_without_terminal; [congruence|exact Hdiff].
Qed.

Lemma diff_all_sequences_off_terminal_witness :
  exists w2,
    diff_all_sequences module_globals world_run_piped
    = (Raise AttributeError, w2).
Proof.
  eexists.
  eapply (diff_all_sequences_off_terminal module_globals world_run_piped
            ["c_seq"; "a_seq"; "b_seq"] _ "a_seq" ["b_seq"; "c_seq"]
            Match "sequences are identical- (5).");
    reflexivity.
Defined.

(** With no sequence in the first catalog, [diff_all_sequences] returns 0
    after its single listing statement, on a terminal or not. *)
Theorem diff_all_sequences_no_sequence G w :
  sequences (db (firstsession w)) = [] ->
  fault_at (firstsession w) (length (executed (firstsession w))) = None ->
  exists w',
    diff_all_sequences G w = (Ret 0, w') /\
    executed (firstsession w')
    = (executed (firstsession w) ++ [SequenceNames])%list /\
    secondsession w' = secondsession w.
Proof.
  intros Hnone Hfault. eexists. unfold diff_all_sequences.
  erewrite bind_ret_eq.
  2:{ unfold get_all_sequences. apply run_statement_ok; [exact Hfault|].
      unfold sequence_names_query. cbn [session]. rewrite Hnone. reflexivity. }
  cbn. repeat split; reflexivity.
Qed.

Lemma diff_all_sequences_no_sequence_witness :
  exists w',
    diff_all_sequences module_globals world_no_sequence = (Ret 0, w') /\
    executed (firstsession w')
    = (executed (firstsession world_no_sequence) ++ [SequenceNames])%list /\
    secondsession w' = secondsession world_no_sequence.
Proof.
  apply (diff_all_sequences_no_sequence module_globals world_no_sequence);
    reflexivity.
Defined.

Lemma analyse_all_aborts kind diff :
  forall done w vs w1, Verdicts diff done w vs w1 ->
  forall entity rest failures e w2,
    diff entity w1 = (Raise e, w2) ->
    analyse_all kind diff (done ++ entity :: rest) failures w = (Raise e, w2).
Proof.
  induction 1 as [w|entity0 rest0 w v msg w1 vs w2 Htty Hdiff _ IH];
    intros entity rest failures e w3 Hraise.
  - cbn [List.app analyse_all]. unfold bind at 1. unfold StatusUpdate_init at 1.
    apply bind_raise_eq. exact Hraise.
  - cbn [List.app analyse_all]. unfold bind at 1. unfold StatusUpdate_init at 1.
    rewrite Htty.
    erewrite bind_ret_eq by exact Hdiff.
    cbv beta iota. unfold bind at 1. unfold StatusUpdate_complete at 1.
    cbn [spinner ret]. apply IH. exact Hraise.
Qed.

(** An exception out of one comparison ends the whole run: when the
    sequences before [entity] have produced their verdicts and
    [diff_sequence] raises on [entity], [diff_all_sequences] raises the same
    exception and the sequences after [entity] are not compared. *)
Theorem diff_all_sequences_aborts G w names w0 done entity rest vs w1 e w2 :
  get_all_sequences w = (Ret names, w0) ->
  sorted names = (done ++ entity :: rest)%list ->
  Verdicts (diff_sequence G) done w0 vs w1 ->
  diff_sequence G entity w1 = (Raise e, w2) ->
  diff_all_sequences G w = (Raise e, w2).
Proof.
  intros Hnames Hsorted Hdone Hraise. unfold diff_all_sequences.
  erewrite bind_ret_eq by exact Hnames.
  apply bind_raise_eq. rewrite Hsorted.
  eapply analyse_all_aborts; eassumption.
Qed.

Lemma diff_all_sequences_aborts_witness :
  exists w2,
    diff_all_sequences module_globals world_one_missing_sequence
    = (Raise NameError, w2) /\
    executed (secondsession w2) = [SequenceValue "a_seq"; SequenceValue "b_seq"].
Proof.
  eexists. split.
  - eapply (diff_all_sequences_aborts module_globals
              world_one_missing_sequence ["c_seq"; "a_seq"; "b_seq"] _
              ["a_seq"] "b_seq" ["c_seq"] [Match]).
    + reflexivity.
    + reflexivity.
    + eapply Verdicts_cons; [reflexivity|vm_compute; reflexivity|].
      apply Verdicts_nil.
    + vm_compute. reflexivity.
  - reflexivity.
Defined.

(** [diff_all_table_data] installs the aggregate whatever the mode: on two
    databases that did not have it, over connections that accept the two
    installing statements, both catalogs hold [public.last] when the run
    ends, however it ends, also in count-only mode, which never uses it. *)
Theorem diff_all_table_data_installs_aggregate G md5 fuel w r w' :
  has_routine (db (firstsession w)) "public.last" = false ->
  has_routine (db (secondsession w)) "public.last" = false ->
  fault_at (firstsession w) (length (executed (firstsession w))) = None ->
  fault_at (secondsession w) (length (executed (secondsession w))) = None ->
  diff_all_table_data G md5 fuel w = (r, w') ->
  has_routine (db (firstsession w')) "public.last" = true /\
  has_routine (db (secondsession w')) "public.last" = true.
Proof.
  intros Hl1 Hl2 Hf1 Hf2.
  destruct (create_aggregate_functions_fresh w Hl1 Hl2 Hf1 Hf2)
    as (w1 & Hrun & Ha1 & _ & Ha2 & _).
  unfold diff_all_table_data.
  erewrite bind_ret_eq by exact Hrun.
  intros H.
  assert (Hsame : same_data w1 w').
  { revert H. apply keeps_data_bind.
    { intros w0 r0 w0' H0. injection H0 as _ <-. apply same_data_refl. }
    intros names.
    apply keeps_data_bind; [|intros f; apply keeps_data_ret].
    apply keeps_data_analyse_all. intros entity.
    apply keeps_data_diff_table_data. }
  destruct Hsame as (Hd1 & Hd2 & _). rewrite Hd1, Hd2. split; assumption.
Qed.

Lemma diff_all_table_data_installs_aggregate_witness :
  has_routine
    (db (firstsession
           (snd (diff_all_table_data module_globals plain_md5 0 world_run))))
    "public.last" = true /\
  has_routine
    (db (secondsession
           (snd (diff_all_table_data module_globals plain_md5 0 world_run))))
    "public.last" = true.
Proof.
  apply (diff_all_table_data_installs_aggregate module_globals plain_md5 0
           world_run
           (fst (diff_all_table_data module_globals plain_md5 0 world_run)));
    reflexivity.
Defined.

Lemma page_rows_at_most_limit_witness :
  (length [order_row 2; order_row 3] <= Z.to_nat 2)%nat.
Proof.
  apply (page_rows_at_most_limit (orders_db [1; 2; 3])
           (SQL_TEMPLATE_HASH "orders" ["id"] 2)
           [("id", PyInt 2); ("has_offset", PyBool true)]
           [order_row 2; order_row 3]).
  reflexivity.
Defined.
